(** * InfluxDB plugin: grouping of metrics and batched sending

    A shallow embedding of [src/influxdb/main.py] (Python 2): the value
    encoder and the tag escaping of [_receive_metric_data], the grouping of
    pending metrics, [_build_entry], the send queue and the loop of
    [_sender] with its statistics, [_read_config] and [_load_definitions],
    followed by the properties that the specification states about them
    and by further properties of the code. *)

From Stdlib Require Import ZArith QArith String Ascii List Lia.
From stdpp Require Import gmap strings list fin_maps pretty.
From Equations Require Import Equations.

Close Scope Q_scope.
Open Scope string_scope.
Open Scope list_scope.
Open Scope Z_scope.

(** ** Python values *)

(** The scalar values a metric carries.  Python 2 has two integer types,
    [int] (machine word) and [long] (arbitrary precision); [bool] is a
    subclass of [int].  A finite float is carried by its exact rational
    value (NaN and the infinities are left out).  Strings are byte strings. *)
Inductive PyVal : Type :=
| VNone
| VBool (b : bool)
| VInt (n : Z)
| VLong (n : Z)
| VFloat (x : Q)
| VStr (s : string).

(** [isinstance(v, basestring)], [isinstance(v, bool)], [isinstance(v, int)]. *)
Definition isinstance_basestring (v : PyVal) : bool :=
  match v with VStr _ => true | _ => false end.

Definition isinstance_bool (v : PyVal) : bool :=
  match v with VBool _ => true | _ => false end.

Definition isinstance_int (v : PyVal) : bool :=
  match v with VBool _ | VInt _ => true | _ => false end.

(** The numeric value of a number, for comparisons across numeric types. *)
Definition py_num (v : PyVal) : option Q :=
  match v with
  | VBool b => Some (inject_Z (if b then 1 else 0))
  | VInt n | VLong n => Some (inject_Z n)
  | VFloat x => Some x
  | _ => None
  end.

(** Python's [a == b] on scalars: numbers compare by value whatever their
    type, strings with strings, [None] with [None]. *)
Definition py_eq (a b : PyVal) : bool :=
  match a, b with
  | VStr s, VStr t => String.eqb s t
  | VNone, VNone => true
  | _, _ =>
      match py_num a, py_num b with
      | Some x, Some y => Qeq_bool x y
      | _, _ => false
      end
  end.

(** ** Strings *)

Definition dquote : ascii := "034"%char.

Definition ascii_lower (c : ascii) : ascii :=
  let n := nat_of_ascii c in
  if (65 <=? n)%nat && (n <=? 90)%nat then ascii_of_nat (n + 32) else c.

(** [s.lower()] *)
Fixpoint lower (s : string) : string :=
  match s with
  | EmptyString => EmptyString
  | String c r => String (ascii_lower c) (lower r)
  end.

(** [s.replace(old, new)] for a one-character [old]. *)
Fixpoint replace (old : ascii) (new : string) (s : string) : string :=
  match s with
  | EmptyString => EmptyString
  | String c r =>
      if Ascii.eqb c old then new +:+ replace old new r
      else String c (replace old new r)
  end.

(** [sep.join(l)] *)
Fixpoint join (sep : string) (l : list string) : string :=
  match l with
  | [] => ""
  | [x] => x
  | x :: r => x +:+ sep +:+ join sep r
  end.

Definition digit_of (c : ascii) : nat := nat_of_ascii c - 48.

(** [c in s] for a character [c]. *)
Fixpoint has_char (c : ascii) (s : string) : bool :=
  match s with
  | EmptyString => false
  | String c' r => Ascii.eqb c' c || has_char c r
  end.

Definition hex_digit (n : nat) : ascii :=
  match n with
  | 0 => "0" | 1 => "1" | 2 => "2" | 3 => "3" | 4 => "4" | 5 => "5"
  | 6 => "6" | 7 => "7" | 8 => "8" | 9 => "9" | 10 => "a" | 11 => "b"
  | 12 => "c" | 13 => "d" | 14 => "e" | _ => "f"
  end%nat%char.

(** One character of [repr(s)] between the quotes: the quote character and
    the backslash get a backslash, tab, newline and carriage return their
    letter, and any other character outside the printable ASCII range its
    two hexadecimal digits. *)
Definition repr_char (quote c : ascii) : string :=
  let n := nat_of_ascii c in
  if Ascii.eqb c quote || Ascii.eqb c "\" then String "\" (String c "")
  else if Ascii.eqb c "009" then "\t"
  else if Ascii.eqb c "010" then "\n"
  else if Ascii.eqb c "013" then "\r"
  else if (n <? 32)%nat || (127 <=? n)%nat
       then String "\" (String "x" (String (hex_digit (n / 16)%nat)
                                     (String (hex_digit (n mod 16)%nat) "")))
       else String c "".

Fixpoint repr_chars (quote : ascii) (s : string) : string :=
  match s with
  | EmptyString => EmptyString
  | String c r => repr_char quote c +:+ repr_chars quote r
  end.

(** [repr(s)] of a byte string: in single quotes, or in double quotes when
    [s] holds a single quote and no double quote. *)
Definition py_repr (s : string) : string :=
  let quote :=
    if has_char "'" s && negb (has_char dquote s) then dquote else "'"%char in
  String quote (repr_chars quote s +:+ String quote "").

(** A printable ASCII character other than the single quote and the
    backslash, and a string of such characters: [repr] shows it as it is,
    in single quotes. *)
Definition plain_char (c : ascii) : bool :=
  (32 <=? nat_of_ascii c)%nat && (nat_of_ascii c <? 127)%nat
  && negb (Ascii.eqb c "'") && negb (Ascii.eqb c "\").

Fixpoint plain (s : string) : bool :=
  match s with
  | EmptyString => true
  | String c r => plain_char c && plain r
  end.

(** ** Floats

    A finite float is carried by its exact rational value.  The roundings
    below are those of the double format, to the nearest with ties to even,
    for values within the range of the normal doubles. *)

(** The integer nearest to [n / d], for [0 < d]; a tie goes to the even
    one. *)
Definition div_half_even (n d : Z) : Z :=
  let q := n / d in
  match Z.compare (2 * (n mod d)) d with
  | Lt => q
  | Gt => q + 1
  | Eq => if Z.even q then q else q + 1
  end.

(** [float(n)] for an integer [n]: the double nearest to [n], which is a
    whole number; it is [n] itself when [n] has at most 53 significant
    bits.  (From 2 ** 1024 on the conversion raises [OverflowError]; the
    integers met here are taken to be below.) *)
Definition float_of_int (n : Z) : Z :=
  let e := Z.log2 (Z.abs n) - 52 in
  if Z.leb e 0 then n
  else Z.sgn n * div_half_even (Z.abs n) (2 ^ e) * 2 ^ e.

(** An integer that [float] converts without [OverflowError]: the nearest
    double is below 2 ** 1024. *)
Definition fits_double (n : Z) : Prop := Z.abs n < 2 ^ 1024 - 2 ^ 970.

(** Is [2 ^ k <= n / d]? *)
Definition reaches (n d k : Z) : bool :=
  if Z.leb 0 k then Z.leb (d * 2 ^ k) n else Z.leb d (n * 2 ^ (- k)).

(** The double nearest to the rational [x]: the result of a float operation
    whose exact result is [x]. *)
Definition round_double (x : Q) : Q :=
  let n := Z.abs (Qnum x) in
  let d := Z.pos (Qden x) in
  if Z.eqb n 0 then 0%Q
  else
    let k := Z.log2 n - Z.log2 d in
    let e := (if reaches n d k then k else k - 1) - 52 in
    let m := if Z.leb 0 e then div_half_even n (d * 2 ^ e)
             else div_half_even (n * 2 ^ (- e)) d in
    if Z.leb 0 e then inject_Z (Z.sgn (Qnum x) * m * 2 ^ e)
    else Qmake (Z.sgn (Qnum x) * m) (Z.to_pos (2 ^ (- e))).

(** [a < b] on floats. *)
Definition Qlt_bool (a b : Q) : bool := negb (Qle_bool b a).

Fixpoint zero_pad (width : nat) (s : string) : string :=
  match width with
  | O => s
  | S w => if (String.length s <? width)%nat then "0" +:+ zero_pad w s else s
  end.

(** ['{:.<digits>f}'.format(x)] for a float [x]: [x] rounded to [digits]
    fractional digits, a tie of the exact value going to the even digit. *)
Definition format_fixed (digits : nat) (x : Q) : string :=
  let scale := 10 ^ Z.of_nat digits in
  let n := div_half_even (Z.abs (Qnum x) * scale) (Z.pos (Qden x)) in
  (if Z.ltb (Qnum x) 0 then "-" else "")
  +:+ pretty (n / scale)
  +:+ match digits with
      | O => ""
      | S _ => "." +:+ zero_pad digits (pretty (n mod scale))
      end.

(** ['{:.0f}'.format(n)] for an integer [n]: [n] is converted to a float,
    which is printed without fractional digits. *)
Definition format_0f (n : Z) : string := pretty (float_of_int n).

(** ['{:.2f}'.format(n)] for an integer [n]. *)
Definition format_2f_int (n : Z) : string :=
  format_fixed 2 (inject_Z (float_of_int n)).

(** ** Dictionaries with string keys

    A dictionary is a list of items with distinct keys, in iteration order.
    Assigning to a key that is present replaces its value in place; a new
    key goes to the end.  (Python 2 iterates a dict in hash order; the
    properties below speak of the iteration order of the mapping, whatever
    it is, and insertion order stands for it.) *)
Definition Dict : Type := list (string * PyVal).

Fixpoint dict_get (d : Dict) (k : string) : option PyVal :=
  match d with
  | [] => None
  | (k', v) :: r => if String.eqb k' k then Some v else dict_get r k
  end.

(** [d[k] = v] *)
Fixpoint dict_set (d : Dict) (k : string) (v : PyVal) : Dict :=
  match d with
  | [] => [(k, v)]
  | (k', v') :: r =>
      if String.eqb k' k then (k, v) :: r else (k', v') :: dict_set r k v
  end.

Definition dict_keys (d : Dict) : list string := map fst d.

(** [d.get(k)], which is [None] for a missing key. *)
Definition dict_get_default (d : Dict) (k : string) : PyVal :=
  default VNone (dict_get d k).

(** Equality of what two lookups find: both missing, or equal values. *)
Definition lookup_eq (o1 o2 : option PyVal) : bool :=
  match o1, o2 with
  | None, None => true
  | Some a, Some b => py_eq a b
  | _, _ => false
  end.

(** [d1 == d2]: the two dictionaries have the same keys, with equal values
    under each of them. *)
Definition dict_eq (d1 d2 : Dict) : bool :=
  forallb (fun k => lookup_eq (dict_get d1 k) (dict_get d2 k))
          (dict_keys d1 ++ dict_keys d2).

(** ** Exceptions *)

(** The exceptions that occur: a [KeyError] with its key, and the others
    with their message, which is what [str] gives for them. *)
Inductive PyExc : Type :=
| KeyError (k : string)
| IndexError (message : string)
| ValueError (message : string)
| ZeroDivisionError (message : string)
| ConnectionError (message : string).

Inductive Result (A : Type) : Type :=
| Return (a : A)
| Raise (e : PyExc).
Arguments Return {A} a.
Arguments Raise {A} e.

(** [d[k]], which raises [KeyError] for a missing key. *)
Definition dict_item (d : Dict) (k : string) : Result PyVal :=
  match dict_get d k with
  | Some v => Return v
  | None => Raise (KeyError k)
  end.

(** ** Samples, definitions, groups *)

(** A metric as the host delivers it (see [example_metric] in the docstring
    of [_receive_metric_data]): the five fixed keys with their types, and
    the remaining keys of the dictionary in [m_extra]. *)
Record Metric : Type := {
  m_source : string;
  m_type : string;
  m_metric : string;
  m_timestamp : Z;
  m_value : PyVal;
  m_extra : Dict
}.

(** [metric[key]] *)
Definition metric_item (metric : Metric) (key : string) : Result PyVal :=
  if String.eqb key "source" then Return (VStr (m_source metric))
  else if String.eqb key "type" then Return (VStr (m_type metric))
  else if String.eqb key "metric" then Return (VStr (m_metric metric))
  else if String.eqb key "timestamp" then Return (VInt (m_timestamp metric))
  else if String.eqb key "value" then Return (m_value metric)
  else dict_item (m_extra metric) key.

(** A metric definition; only its ['tags'] are read. *)
Record MetricDefinition : Type := {
  def_tags : list string
}.

(** A pending group [[timestamp, tags, fields]]. *)
Record Group : Type := {
  g_timestamp : Z;
  g_tags : Dict;
  g_fields : Dict
}.

(** [g1 == g2] on the three-element lists. *)
Definition group_eq (g1 g2 : Group) : bool :=
  Z.eqb (g_timestamp g1) (g_timestamp g2)
  && dict_eq (g_tags g1) (g_tags g2)
  && dict_eq (g_fields g1) (g_fields g2).

(** [l.remove(x)]: drops the first element equal to [x], and raises
    [ValueError] when there is none. *)
Fixpoint list_remove (x : Group) (l : list Group) : Result (list Group) :=
  match l with
  | [] => Raise (ValueError "list.remove(x): x not in list")
  | y :: r =>
      if group_eq y x then Return r
      else match list_remove x r with
           | Return r' => Return (y :: r')
           | Raise e => Raise e
           end
  end.

(** ** The plugin object *)

Abbreviation Definitions := (gmap string (gmap string (gmap string MetricDefinition))).
Abbreviation Pending := (gmap string (gmap string (list Group))).

(** The configuration dictionary; ['batch_size'] may be missing. *)
Record Config : Type := {
  cfg_url : string;
  cfg_database : string;
  cfg_batch_size : option Z
}.

(** One call of [requests.post], as the sender issues it. *)
Record Request : Type := {
  req_url : string;
  req_data : string
}.

(** The attributes of the plugin that the methods read and write, the log
    lines written through [self.logger] and the requests posted (both newest
    first).  The deque [_send_queue] is a list whose head is its left end;
    the lists [_batch_sizes] and [_queue_sizes] are in the order of their
    appends. *)
Record InfluxDB : Type := {
  _enabled : bool;
  _endpoint : string;
  _batch_size : Z;
  _definitions : option Definitions;
  _pending_metrics : Pending;
  _send_queue : list string;
  _batch_sizes : list nat;
  _queue_sizes : list nat;
  _stats_time : Q;
  logged : list string;
  posted : list Request
}.

Definition set_pending_metrics (pm : Pending) (self : InfluxDB) : InfluxDB :=
  {| _enabled := _enabled self; _endpoint := _endpoint self;
     _batch_size := _batch_size self; _definitions := _definitions self;
     _pending_metrics := pm; _send_queue := _send_queue self;
     _batch_sizes := _batch_sizes self; _queue_sizes := _queue_sizes self;
     _stats_time := _stats_time self;
     logged := logged self; posted := posted self |}.

Definition set_send_queue (q : list string) (self : InfluxDB) : InfluxDB :=
  {| _enabled := _enabled self; _endpoint := _endpoint self;
     _batch_size := _batch_size self; _definitions := _definitions self;
     _pending_metrics := _pending_metrics self; _send_queue := q;
     _batch_sizes := _batch_sizes self; _queue_sizes := _queue_sizes self;
     _stats_time := _stats_time self;
     logged := logged self; posted := posted self |}.

Definition set_definitions (d : option Definitions) (self : InfluxDB) : InfluxDB :=
  {| _enabled := _enabled self; _endpoint := _endpoint self;
     _batch_size := _batch_size self; _definitions := d;
     _pending_metrics := _pending_metrics self; _send_queue := _send_queue self;
     _batch_sizes := _batch_sizes self; _queue_sizes := _queue_sizes self;
     _stats_time := _stats_time self;
     logged := logged self; posted := posted self |}.

(** The statistics of the sender: the two lists of sizes and the time of
    the last summary. *)
Definition set_stats (batch_sizes queue_sizes : list nat) (stats_time : Q)
    (self : InfluxDB) : InfluxDB :=
  {| _enabled := _enabled self; _endpoint := _endpoint self;
     _batch_size := _batch_size self; _definitions := _definitions self;
     _pending_metrics := _pending_metrics self; _send_queue := _send_queue self;
     _batch_sizes := batch_sizes; _queue_sizes := queue_sizes;
     _stats_time := stats_time;
     logged := logged self; posted := posted self |}.

Definition logger (line : string) (self : InfluxDB) : InfluxDB :=
  {| _enabled := _enabled self; _endpoint := _endpoint self;
     _batch_size := _batch_size self; _definitions := _definitions self;
     _pending_metrics := _pending_metrics self; _send_queue := _send_queue self;
     _batch_sizes := _batch_sizes self; _queue_sizes := _queue_sizes self;
     _stats_time := _stats_time self;
     logged := line :: logged self; posted := posted self |}.

Definition post (r : Request) (self : InfluxDB) : InfluxDB :=
  {| _enabled := _enabled self; _endpoint := _endpoint self;
     _batch_size := _batch_size self; _definitions := _definitions self;
     _pending_metrics := _pending_metrics self; _send_queue := _send_queue self;
     _batch_sizes := _batch_sizes self; _queue_sizes := _queue_sizes self;
     _stats_time := _stats_time self;
     logged := logged self; posted := r :: posted self |}.

(** A method body: it reads and updates the plugin, and returns or raises. *)
Definition M (A : Type) : Type := InfluxDB -> Result A * InfluxDB.

Definition ret {A : Type} (a : A) : M A := fun self => (Return a, self).

Definition bind {A B : Type} (c : M A) (k : A -> M B) : M B :=
  fun self =>
    match c self with
    | (Return a, self') => k a self'
    | (Raise e, self') => (Raise e, self')
    end.

Definition lift {A : Type} (r : Result A) : M A := fun self => (r, self).

Definition update (f : InfluxDB -> InfluxDB) : M unit :=
  fun self => (Return tt, f self).

Definition get : M InfluxDB := fun self => (Return self, self).

Notation "x <- c ;; k" := (bind c (fun x => k))
  (at level 100, c at next level, right associativity).
Notation "c ;; k" := (bind c (fun _ => k))
  (at level 100, right associativity).

(** [self._pending_metrics[source][metric_type]], the list that [entries]
    names once the two [setdefault] calls have run. *)
Definition entries_of (pm : Pending) (source metric_type : string) : list Group :=
  default [] (pm !! source ≫= fun by_type => by_type !! metric_type).

Definition set_entries (source metric_type : string) (entries : list Group)
    (pm : Pending) : Pending :=
  <[source := <[metric_type := entries]> (default ∅ (pm !! source))]> pm.

(** [self._pending_metrics.setdefault(source, {}).setdefault(metric_type, [])] *)
Definition setdefault_entries (source metric_type : string) : M unit :=
  update (fun self =>
    let pm := _pending_metrics self in
    set_pending_metrics
      (set_entries source metric_type (entries_of pm source metric_type) pm) self).

(** An update of the list [entries] in place. *)
Definition update_entries (source metric_type : string)
    (f : list Group -> list Group) : M unit :=
  update (fun self =>
    let pm := _pending_metrics self in
    set_pending_metrics
      (set_entries source metric_type (f (entries_of pm source metric_type)) pm) self).

(** [self._definitions.get(source, {}).get(metric_type, {}).get(name)] *)
Definition lookup_definition (definitions : Definitions)
    (source metric_type name : string) : option MetricDefinition :=
  default ∅ ((default ∅ (definitions !! source)) !! metric_type) !! name.

(** ** The send queue *)

(** [deque.appendleft(x)] *)
Definition appendleft (x : string) (q : list string) : list string := x :: q.

(** [deque.pop()]: takes the right end, [IndexError] on an empty deque. *)
Fixpoint pop (q : list string) : Result (string * list string) :=
  match q with
  | [] => Raise (IndexError "pop from an empty deque")
  | x :: r =>
      match r with
      | [] => Return (x, [])
      | _ :: _ =>
          match pop r with
          | Return (y, r') => Return (y, x :: r')
          | Raise e => Raise e
          end
      end
  end.

Lemma pop_length (q q' : list string) (x : string) :
  pop q = Return (x, q') -> length q = S (length q').
Proof.
  revert x q'. induction q as [|a r IH]; intros x q' H; simpl in H.
  - discriminate.
  - destruct r as [|b r].
    + injection H as <- <-. reflexivity.
    + destruct (pop (b :: r)) as [[y r']|e] eqn:E; [|discriminate].
      injection H as <- <-. simpl. f_equal. exact (IH _ _ eq_refl).
Qed.

Definition inspect {A : Type} (a : A) : {b : A | a = b} := exist _ a eq_refl.

(** Lines 183-190: the drain loop of [_sender].  It pops until the deque is
    empty ([IndexError], swallowed by the handler) or until [data] has
    exactly [batch_size] elements.  The result is [data] and what is left of
    the deque.  An exception other than [IndexError] would leave the loop
    for the outer handler; [pop] raises no other. *)
Equations? drain (batch_size : Z) (data : list string) (q : list string)
    : list string * list string by wf (length q) lt :=
  drain batch_size data q with inspect (pop q) => {
    | exist _ (Raise _) _ := (data, q);
    | exist _ (Return (x, q')) popped :=
        if Z.eqb (Z.of_nat (length (data ++ [x]))) batch_size
        then (data ++ [x], q')
        else drain batch_size (data ++ [x]) q' }.
Proof. pose proof (pop_length _ _ _ popped). lia. Qed.

(** How many entries one drain takes from a queue of [len] entries when
    [data] already holds [held] of them. *)
Definition taken (batch_size : Z) (held len : nat) : nat :=
  if Z.ltb (Z.of_nat held) batch_size
  then Nat.min (Z.to_nat (batch_size - Z.of_nat held)) len
  else len.

(** What [requests.post] does: it returns a response or raises. *)
Inductive PostOutcome : Type :=
| Response (status_code : Z) (text : string)
| PostRaises (ex : PyExc).

(** What one turn of the loop of [_sender] meets outside the plugin: what
    [requests.post] does if it is called, and what [time.time()] returns on
    line 201 and on line 202 if these calls are made. *)
Record Turn : Type := {
  turn_post : PostOutcome;
  time_201 : Q;
  time_202 : Q
}.

(** [min(l)] and [max(l)], which raise [ValueError] for an empty list. *)
Definition py_min (l : list nat) : Result nat :=
  match l with
  | [] => Raise (ValueError "min() arg is an empty sequence")
  | x :: r => Return (foldl Nat.min x r)
  end.

Definition py_max (l : list nat) : Result nat :=
  match l with
  | [] => Raise (ValueError "max() arg is an empty sequence")
  | x :: r => Return (foldl Nat.max x r)
  end.

(** [sum(l) / float(len(l))] *)
Definition py_average (l : list nat) : Result Q :=
  let total := float_of_int (Z.of_nat (foldl Nat.add 0%nat l)) in
  let count := float_of_int (Z.of_nat (length l)) in
  if Z.eqb count 0 then Raise (ZeroDivisionError "float division by zero")
  else Return (round_double (inject_Z total / inject_Z count)%Q).

(** ['{0:.2f} min, {1:.2f} avg, {2:.2f} max'.format(min(l), sum(l) /
    float(len(l)), max(l))], the arguments being evaluated from left to
    right. *)
Definition stats_text (l : list nat) : Result string :=
  match py_min l with
  | Raise e => Raise e
  | Return lowest =>
      match py_average l with
      | Raise e => Raise e
      | Return average =>
          match py_max l with
          | Raise e => Raise e
          | Return highest =>
              Return (format_2f_int (Z.of_nat lowest) +:+ " min, "
                      +:+ format_fixed 2 average +:+ " avg, "
                      +:+ format_2f_int (Z.of_nat highest) +:+ " max")
          end
      end
  end.

(** ** Configuration and start *)

(** Lines 65-79, [_read_config]: the attributes derived from the
    configuration. *)
Definition _read_config (config : Config) (self : InfluxDB) : InfluxDB :=
  let url := cfg_url config in
  let database := cfg_database config in
  let enabled := negb (String.eqb url "") && negb (String.eqb database "") in
  logger ("InfluxDB is " +:+ (if enabled then "enabled" else "disabled"))
    {| _enabled := enabled;
       _endpoint := url +:+ "/write?db=" +:+ database;
       _batch_size := default 10 (cfg_batch_size config);
       _definitions := _definitions self;
       _pending_metrics := _pending_metrics self;
       _send_queue := _send_queue self;
       _batch_sizes := _batch_sizes self;
       _queue_sizes := _queue_sizes self;
       _stats_time := _stats_time self;
       logged := logged self;
       posted := posted self |}.

(** Lines 40-63, [__init__]. *)
Definition init (config : Config) : InfluxDB :=
  logger "Started InfluxDB plugin"
    (_read_config config
       {| _enabled := false; _endpoint := ""; _batch_size := 0;
          _definitions := None; _pending_metrics := ∅; _send_queue := [];
          _batch_sizes := []; _queue_sizes := []; _stats_time := 0%Q;
          logged := ["Starting InfluxDB plugin..."]; posted := [] |}).

(** Lines 84-87: one successful answer of the definitions service. *)
Definition definitions_loaded (definitions : Definitions) (self : InfluxDB)
    : InfluxDB :=
  logger "Definitions loaded" (set_definitions (Some definitions) self).

(** ** The methods *)

(** The text of a float under an empty format specification, which is
    [str(x)] with its twelve significant digits, is taken as given:
    [float_str x] is that text for the float [x]. *)
Class PyFormat : Type := {
  float_str : Q -> string
}.

Section Methods.

Context {fmt : PyFormat}.

(** [str(v)], which is also what an empty format specification yields. *)
Definition py_str (v : PyVal) : string :=
  match v with
  | VNone => "None"
  | VBool true => "True"
  | VBool false => "False"
  | VInt n | VLong n => pretty n
  | VFloat x => float_str x
  | VStr s => s
  end.

(** [template.format(args...)] for templates whose replacement fields are
    [{0}] to [{9}]. *)
Fixpoint py_format (template : string) (args : list PyVal) : string :=
  match template with
  | EmptyString => EmptyString
  | String "{" (String d (String "}" rest)) =>
      py_str (nth (digit_of d) args VNone) +:+ py_format rest args
  | String c rest => String c (py_format rest args)
  end.

(** Lines 132-137: the encoding of the field value. *)
Definition encode_value (value : PyVal) : PyVal :=
  let value :=
    if isinstance_basestring value
    then VStr (py_format (String dquote (String "{" (String "0" (String "}"
                         (String dquote EmptyString))))) [value])
    else value in
  let value :=
    if isinstance_bool value then VStr (py_str value) else value in
  let value :=
    if isinstance_int value then VStr (py_format "{0}i" [value]) else value in
  value.

(** Lines 140-143: a string is escaped, any other value is kept. *)
Definition tag_value (v : PyVal) : PyVal :=
  if isinstance_basestring v
  then match v with
       | VStr s => VStr (replace " " "\ " s)
       | _ => v
       end
  else v.

(** Lines 138-143: the tags of the metric, from [{'type': source}]. *)
Fixpoint build_tags (metric : Metric) (definition_tags : list string)
    (tags : Dict) : Result Dict :=
  match definition_tags with
  | [] => Return tags
  | tag :: rest =>
      match metric_item metric tag with
      | Raise e => Raise e
      | Return v => build_tags metric rest (dict_set tags tag (tag_value v))
      end
  end.

(** The second argument of [_build_entry]'s [value] is a dict of fields or
    a single value. *)
Inductive EntryValue : Type :=
| EDict (fields : Dict)
| EScalar (v : PyVal).

Definition format_item (item : string * PyVal) : string :=
  py_format "{0}={1}" [VStr (fst item); snd item].

(** Lines 167-178.  The timestamp is an integer that fits a double (see
    [float_of_int]), or [None]. *)
Definition _build_entry (key : string) (tags : Dict) (value : EntryValue)
    (timestamp : option Z) : string :=
  let values :=
    match value with
    | EDict value => join "," (map format_item value)
    | EScalar value => py_format "value={0}" [value]
    end in
  py_format "{0},{1} {2}{3}"
    [VStr key;
     VStr (join "," (map format_item tags));
     VStr values;
     VStr (match timestamp with
           | None => ""
           | Some timestamp => " " +:+ format_0f timestamp
           end)].

(** Lines 148-152: does [pending] carry the tags of the metric?  Only the
    tags of the metric's definition are compared. *)
Fixpoint this_one (definition_tags : list string) (tags pending_tags : Dict)
    : Result bool :=
  match definition_tags with
  | [] => Return true
  | tag :: rest =>
      match dict_item tags tag with
      | Raise e => Raise e
      | Return v =>
          if negb (py_eq v (dict_get_default pending_tags tag))
          then Return false
          else this_one rest tags pending_tags
      end
  end.

(** Lines 147-161: the loop over the copy [entries[:]].  [pending] is the
    object at index [i] of [entries] as well: the copy shares its elements
    with [entries], and [entries] is not changed before the loop stops.
    The result is [found]. *)
Fixpoint scan (source metric_type name : string) (definition_tags : list string)
    (tags : Dict) (timestamp : Z) (value : PyVal)
    (copy : list Group) (i : nat) : M bool :=
  match copy with
  | [] => ret false
  | pending :: rest =>
      matches <- lift (this_one definition_tags tags (g_tags pending)) ;;
      if matches then
        if Z.eqb (g_timestamp pending) timestamp then
          update_entries source metric_type
            (fun entries =>
               <[i := {| g_timestamp := g_timestamp pending;
                         g_tags := g_tags pending;
                         g_fields := dict_set (g_fields pending) name value |}]>
                 entries) ;;
          ret true
        else
          let data := _build_entry metric_type (g_tags pending)
                        (EDict (g_fields pending))
                        (Some (g_timestamp pending)) in
          update (fun self =>
                    set_send_queue (appendleft data (_send_queue self)) self) ;;
          self <- get ;;
          entries <- lift (list_remove pending
                             (entries_of (_pending_metrics self)
                                source metric_type)) ;;
          update_entries source metric_type (fun _ => entries) ;;
          ret false
      else scan source metric_type name definition_tags tags timestamp value
             rest (S i)
  end.

(** Lines 120-163: the body of the [try] statement. *)
Definition receive_try (metric : Metric) : M unit :=
  fun self =>
    match _enabled self, _definitions self with
    | false, _ | _, None => (Return tt, self)
    | true, Some definitions =>
        let metric_type := m_type metric in
        let source := lower (m_source metric) in
        let timestamp := m_timestamp metric * 1000000000 in
        let value := m_value metric in
        match lookup_definition definitions (m_source metric) metric_type
                (m_metric metric) with
        | None => (Return tt, self)
        | Some definition =>
            let value := encode_value value in
            (tags <- lift (build_tags metric (def_tags definition)
                             [("type", VStr source)]) ;;
             setdefault_entries source metric_type ;;
             self' <- get ;;
             found <- scan source metric_type (m_metric metric)
                        (def_tags definition) tags timestamp value
                        (entries_of (_pending_metrics self') source metric_type)
                        0%nat ;;
             if found then ret tt
             else update_entries source metric_type
                    (fun entries =>
                       entries ++ [{| g_timestamp := timestamp;
                                      g_tags := tags;
                                      g_fields := [(m_metric metric, value)] |}]))
              self
        end
    end.

(** The text of an exception, as ['{0}'.format(ex)] gives it: the [repr]
    of the key for a [KeyError], the message for the others. *)
Definition exc_str (e : PyExc) : string :=
  match e with
  | KeyError k => py_repr k
  | IndexError message | ValueError message | ZeroDivisionError message
  | ConnectionError message => message
  end.

(** Lines 119-165: [_receive_metric_data], the [try] with its handler. *)
Definition _receive_metric_data (metric : Metric) (self : InfluxDB) : InfluxDB :=
  match receive_try metric self with
  | (Return _, self') => self'
  | (Raise ex, self') =>
      logger (py_format "Error receiving metrics: {0}" [VStr (exc_str ex)]) self'
  end.

(** Lines 201-214: the summary of the statistics, written when the last
    one is more than 1800 seconds old; [_stats_time] starts at 0. *)
Definition sender_stats (turn : Turn) : M unit :=
  self <- get ;;
  if Qlt_bool (_stats_time self) (round_double (time_201 turn - 1800)%Q) then
    update (set_stats (_batch_sizes self) (_queue_sizes self) (time_202 turn)) ;;
    queue_stats <- lift (stats_text (_queue_sizes self)) ;;
    update (logger ("Queue size stats: " +:+ queue_stats)) ;;
    batch_stats <- lift (stats_text (_batch_sizes self)) ;;
    update (logger ("Batch size stats: " +:+ batch_stats)) ;;
    update (set_stats [] [] (time_202 turn))
  else ret tt.

(** Lines 183-214: the body of the [try] statement of one turn. *)
Definition sender_try (turn : Turn) : M unit :=
  self <- get ;;
  let '(data, q) := drain (_batch_size self) [] (_send_queue self) in
  update (set_send_queue q) ;;
  if (0 <? length data)%nat then
    update (set_stats (_batch_sizes self ++ [length data])
                      (_queue_sizes self ++ [length q]) (_stats_time self)) ;;
    update (post {| req_url := _endpoint self;
                    req_data := join (String "010" EmptyString) data |}) ;;
    match turn_post turn with
    | PostRaises ex => lift (Raise ex)
    | Response status_code text =>
        (if negb (Z.eqb status_code 204)
         then update (logger (py_format "Send failed, received: {0} ({1})"
                                [VStr text; VInt status_code]))
         else ret tt) ;;
        sender_stats turn
    end
  else ret tt.

(** Lines 182-217: one turn of the loop of [_sender], the [try] with its
    handler. *)
Definition sender_cycle (turn : Turn) (self : InfluxDB) : InfluxDB :=
  match sender_try turn self with
  | (Return _, self') => self'
  | (Raise ex, self') =>
      logger (py_format "Error sending from queue: {0}" [VStr (exc_str ex)]) self'
  end.

(** Lines 180-217: [_sender] loops forever; these are its first turns, one
    for each element of [turns]. *)
Definition _sender (turns : list Turn) (self : InfluxDB) : InfluxDB :=
  foldl (fun self turn => sender_cycle turn self) self turns.

End Methods.


(** ** The definition loader *)

(** What one call of the definitions service gives: a result with its
    ['success'] flag and its ['definitions'] (which may be [null]), or an
    exception (no connection, no JSON, a missing key). *)
Inductive Answer : Type :=
| Answered (success : bool) (definitions : option Definitions)
| AnswerRaises (ex : PyExc).

(** Lines 83-89: one turn of the loop of [_load_definitions]. *)
Definition load_attempt (answer : Answer) (self : InfluxDB) : InfluxDB :=
  match answer with
  | Answered true definitions =>
      logger "Definitions loaded" (set_definitions definitions self)
  | Answered false _ => self
  | AnswerRaises ex => logger "Error loading definitions, retrying" self
  end.

(** Lines 81-90: [_load_definitions], run on the answers the service gives
    one after the other.  The loop is left as soon as [_definitions] is
    set. *)
Fixpoint _load_definitions (answers : list Answer) (self : InfluxDB) : InfluxDB :=
  match answers with
  | [] => self
  | answer :: rest =>
      match _definitions self with
      | None => _load_definitions rest (load_attempt answer self)
      | Some _ => self
      end
  end.

(** The definitions of the first successful answer that carries some. *)
Fixpoint first_loaded (answers : list Answer) : option Definitions :=
  match answers with
  | [] => None
  | Answered true (Some definitions) :: _ => Some definitions
  | _ :: rest => first_loaded rest
  end.

(** ** The line of an entry, as the specification writes it

    [<family>,<tag1>=<v1>,<tag2>=<v2> <field1>=<enc1>,<field2>=<enc2>
    <timestamp_ns>]: the items of a mapping of texts in its iteration order
    with a comma before each but the first, one space between the segments,
    the timestamp in decimal digits, and no last segment without a
    timestamp. *)
Fixpoint more_items (items : list (string * string)) : string :=
  match items with
  | [] => ""
  | (name, text) :: rest => "," +:+ name +:+ "=" +:+ text +:+ more_items rest
  end.

Definition items_text (items : list (string * string)) : string :=
  match items with
  | [] => ""
  | (name, text) :: rest => name +:+ "=" +:+ text +:+ more_items rest
  end.

Definition entry_line (family : string) (tags fields : list (string * string))
    (timestamp_ns : option Z) : string :=
  family +:+ "," +:+ items_text tags +:+ " " +:+ items_text fields
  +:+ match timestamp_ns with
      | None => ""
      | Some timestamp_ns => " " +:+ pretty timestamp_ns
      end.

(** Neither text of an item holds a line break. *)
Definition item_on_one_line (item : string * string) : Prop :=
  has_char "010" (fst item) = false /\ has_char "010" (snd item) = false.

(** ** The grouping and the sender, as the specification words them *)

Section Specification.

Context {fmt : PyFormat}.

(** The group [pending] agrees with the tags of a sample on every tag key
    of the sample's definition. *)
Definition agrees (definition_tags : list string) (tags pending_tags : Dict)
    : bool :=
  forallb (fun tag => py_eq (dict_get_default tags tag)
                            (dict_get_default pending_tags tag))
          definition_tags.

(** The first open group, in insertion order, that agrees with the sample. *)
Definition first_agreeing (definition_tags : list string) (tags : Dict)
    (entries : list Group) : option (nat * Group) :=
  list_find (fun pending =>
               agrees definition_tags tags (g_tags pending) = true) entries.

Definition new_group (timestamp : Z) (tags : Dict) (name : string)
    (value : PyVal) : Group :=
  {| g_timestamp := timestamp; g_tags := tags; g_fields := [(name, value)] |}.

Definition merge_field (pending : Group) (name : string) (value : PyVal)
    : Group :=
  {| g_timestamp := g_timestamp pending; g_tags := g_tags pending;
     g_fields := dict_set (g_fields pending) name value |}.

(** The rendered line of a group that is closed. *)
Definition render (metric_type : string) (pending : Group) : string :=
  _build_entry metric_type (g_tags pending) (EDict (g_fields pending))
    (Some (g_timestamp pending)).

(** Step 4 of the ingestion on one bucket: the open groups afterwards and
    the lines pushed to the queue. *)
Definition ingest_bucket (metric_type name : string)
    (definition_tags : list string) (tags : Dict) (timestamp : Z)
    (value : PyVal) (entries : list Group) : list Group * list string :=
  match first_agreeing definition_tags tags entries with
  | Some (i, pending) =>
      if Z.eqb (g_timestamp pending) timestamp
      then (<[i := merge_field pending name value]> entries, [])
      else (delete i entries ++ [new_group timestamp tags name value],
            [render metric_type pending])
  | None => (entries ++ [new_group timestamp tags name value], [])
  end.

(** A sample that passes steps 1 to 3: the plugin is enabled, the
    definitions are loaded and hold one for the sample, and every tag of
    that definition is found in the sample. *)
Definition accepted (self : InfluxDB) (metric : Metric)
    (definition : MetricDefinition) (tags : Dict) : Prop :=
  _enabled self = true
  /\ (exists definitions,
        _definitions self = Some definitions
        /\ lookup_definition definitions (m_source metric) (m_type metric)
             (m_metric metric) = Some definition)
  /\ build_tags metric (def_tags definition)
       [("type", VStr (lower (m_source metric)))] = Return tags.

(** The bucket of a sample. *)
Definition bucket (self : InfluxDB) (metric : Metric) : list Group :=
  entries_of (_pending_metrics self) (lower (m_source metric)) (m_type metric).

(** The plugin after an accepted sample went through step 4. *)
Definition after_ingest (self : InfluxDB) (metric : Metric)
    (definition : MetricDefinition) (tags : Dict) : InfluxDB :=
  let '(entries, closed) :=
    ingest_bucket (m_type metric) (m_metric metric) (def_tags definition) tags
      (m_timestamp metric * 1000000000) (encode_value (m_value metric))
      (bucket self metric) in
  set_pending_metrics
    (set_entries (lower (m_source metric)) (m_type metric) entries
       (_pending_metrics self))
    (set_send_queue (closed ++ _send_queue self) self).

(** [pending], at index [i], is the group the scan stops at: the first one
    in insertion order that agrees with the sample. *)
Definition selects (definition_tags : list string) (tags : Dict)
    (entries : list Group) (i : nat) (pending : Group) : Prop :=
  entries !! i = Some pending
  /\ agrees definition_tags tags (g_tags pending) = true
  /\ forall (j : nat) (y : Group),
       entries !! j = Some y -> (j < i)%nat ->
       agrees definition_tags tags (g_tags y) = false.

(** An item of the line of the entry encoder, [<tag>=<v>] or
    [<field>=<enc>]. *)
Definition item_text (item : string * PyVal) : string :=
  fst item +:+ "=" +:+ py_str (snd item).

(** The texts that [_build_entry] writes for the values of a mapping:
    ['{0}={1}'.format(name, value)] writes a value as [str] gives it. *)
Definition stringified (d : Dict) : list (string * string) :=
  map (fun item => (fst item, py_str (snd item))) d.

(** All definitions that feed one bucket declare the same tag keys.  The
    bucket is chosen by the lower-cased source and the metric type. *)
Definition homogeneous (definitions : Definitions) : Prop :=
  forall source1 source2 metric_type name1 name2 definition1 definition2,
    lower source1 = lower source2 ->
    lookup_definition definitions source1 metric_type name1 = Some definition1 ->
    lookup_definition definitions source2 metric_type name2 = Some definition2 ->
    def_tags definition1 = def_tags definition2.

(** What can happen to the plugin: a sample is received, the sender makes
    a turn, the loader makes a turn (as long as the definitions are not
    set), the configuration is set. *)
Inductive step : InfluxDB -> InfluxDB -> Prop :=
| step_receive (metric : Metric) (self : InfluxDB) :
    step self (_receive_metric_data metric self)
| step_sender (turn : Turn) (self : InfluxDB) :
    step self (sender_cycle turn self)
| step_loader (answer : Answer) (self : InfluxDB) :
    _definitions self = None ->
    step self (load_attempt answer self)
| step_config (config : Config) (self : InfluxDB) :
    step self (_read_config config self).

Inductive reachable : InfluxDB -> Prop :=
| reachable_init (config : Config) : reachable (init config)
| reachable_step (self self' : InfluxDB) :
    reachable self -> step self self' -> reachable self'.

(** No two open groups of a bucket have equal tags. *)
Definition one_group_per_tagset (entries : list Group) : Prop :=
  forall (i j : nat) (gi gj : Group),
    entries !! i = Some gi -> entries !! j = Some gj -> i <> j ->
    dict_eq (g_tags gi) (g_tags gj) = false.

(** The sample merges its field into the group the scan stops at. *)
Definition merged_into (self self' : InfluxDB) (metric : Metric)
    (definition : MetricDefinition) (tags : Dict) : Prop :=
  exists i pending,
    selects (def_tags definition) tags (bucket self metric) i pending
    /\ g_timestamp pending = m_timestamp metric * 1000000000
    /\ bucket self' metric
       = <[i := merge_field pending (m_metric metric)
                   (encode_value (m_value metric))]> (bucket self metric)
    /\ _send_queue self' = _send_queue self.

(** The sample starts a new group at the end of its bucket, after the
    groups in [closed] (none, or the one the scan stopped at) were closed
    and their lines pushed. *)
Definition started_new (self self' : InfluxDB) (metric : Metric)
    (definition : MetricDefinition) (tags : Dict) (closed : list Group)
    : Prop :=
  let fresh := new_group (m_timestamp metric * 1000000000) tags
                 (m_metric metric) (encode_value (m_value metric)) in
  _send_queue self' = map (render (m_type metric)) closed ++ _send_queue self
  /\ ((closed = []
       /\ (forall y, y ∈ bucket self metric ->
                     agrees (def_tags definition) tags (g_tags y) = false)
       /\ bucket self' metric = bucket self metric ++ [fresh])
      \/ (exists i pending,
            selects (def_tags definition) tags (bucket self metric) i pending
            /\ g_timestamp pending <> m_timestamp metric * 1000000000
            /\ closed = [pending]
            /\ bucket self' metric = delete i (bucket self metric) ++ [fresh])).

(** Tags as [build_tags] makes them for a source and a list of tag keys:
    a value under each tag key, and beyond them only ['type']. *)
Definition shaped (source : string) (definition_tags : list string)
    (tags : Dict) : Prop :=
  (forall k, k ∈ definition_tags -> is_Some (dict_get tags k))
  /\ (forall k, k ∉ definition_tags ->
                dict_get tags k = dict_get [("type", VStr source)] k).

(** The invariant of one bucket under homogeneous definitions. *)
Definition bucket_inv (definitions : Definitions) (source metric_type : string)
    (entries : list Group) : Prop :=
  one_group_per_tagset entries
  /\ forall g, g ∈ entries ->
       exists source' name definition,
         lower source' = source
         /\ lookup_definition definitions source' metric_type name
            = Some definition
         /\ shaped source (def_tags definition) (g_tags g).

Definition plugin_inv (self : InfluxDB) : Prop :=
  match _definitions self with
  | None =>
      forall source metric_type,
        entries_of (_pending_metrics self) source metric_type = []
  | Some definitions =>
      homogeneous definitions ->
      forall source metric_type,
        bucket_inv definitions source metric_type
          (entries_of (_pending_metrics self) source metric_type)
  end.

(** The definitions, once loaded, are homogeneous. *)
Definition homogeneous_definitions (self : InfluxDB) : Prop :=
  forall definitions,
    _definitions self = Some definitions -> homogeneous definitions.

End Specification.

(** ** The queue between the grouping and the sender *)

(** The producer pushes at the left end, the sender drains at the right end.
    A trace keeps, next to the deque, what was pushed and what was handed to
    the sender, both in order. *)
Inductive QueueOp : Type :=
| Push (entry : string)
| Drain.

Record Trace : Type := {
  tr_queue : list string;
  tr_pushed : list string;
  tr_delivered : list string
}.

Definition queue_step (batch_size : Z) (t : Trace) (op : QueueOp) : Trace :=
  match op with
  | Push entry =>
      {| tr_queue := appendleft entry (tr_queue t);
         tr_pushed := tr_pushed t ++ [entry];
         tr_delivered := tr_delivered t |}
  | Drain =>
      let '(data, q) := drain batch_size [] (tr_queue t) in
      {| tr_queue := q;
         tr_pushed := tr_pushed t;
         tr_delivered := tr_delivered t ++ data |}
  end.

Definition run_queue (batch_size : Z) (ops : list QueueOp) : Trace :=
  foldl (queue_step batch_size)
        {| tr_queue := []; tr_pushed := []; tr_delivered := [] |} ops.

(** ** Sample data *)

(** A formatting for the examples: [float_str] prints one fractional
    digit, which is what Python prints for the small non-negative multiples
    of 0.5; no sample value below is a float. *)
Definition example_format : PyFormat :=
  {| float_str := fun x =>
       pretty (Qnum x / Z.pos (Qden x)) +:+ "."
         +:+ pretty (10 * (Qnum x mod Z.pos (Qden x)) / Z.pos (Qden x)) |}.

Definition example_config : Config :=
  {| cfg_url := "http://1.2.3.4:8086";
     cfg_database := "openmotics";
     cfg_batch_size := None |}.

Definition device_id : MetricDefinition := {| def_tags := ["device"; "id"] |}.

(** Definitions that all declare the tags of the docstring's example. *)
Definition example_definitions : Definitions :=
  {[ "OpenMotics" :=
       {[ "energy" := {[ "power" := device_id; "voltage" := device_id ]} ]} ]}.

(** Definitions of one metric type that declare different tags. *)
Definition mixed_definitions : Definitions :=
  {[ "OpenMotics" :=
       {[ "energy" := {[ "power" := device_id;
                         "uptime" := {| def_tags := ["id"] |} ]} ]} ]}.

Definition sample (name : string) (timestamp value : Z) (extra : Dict) : Metric :=
  {| m_source := "OpenMotics"; m_type := "energy"; m_metric := name;
     m_timestamp := timestamp; m_value := VInt value; m_extra := extra |}.

Definition meter (device : string) : Dict :=
  [("device", VStr device); ("id", VInt 0)].

Definition meter_tags (device : string) : Dict :=
  [("type", VStr "openmotics"); ("device", VStr device); ("id", VInt 0)].

Definition id_tags : Dict := [("type", VStr "openmotics"); ("id", VInt 0)].

Definition receive_example : Metric -> InfluxDB -> InfluxDB :=
  @_receive_metric_data example_format.

(** The plugin, started and with its definitions loaded. *)
Definition started (definitions : Definitions) : InfluxDB :=
  definitions_loaded definitions (init example_config).

(** Two meters report their power, at the timestamps 1 and 2. *)
Definition two_meters (definitions : Definitions) : InfluxDB :=
  receive_example (sample "power" 2 5 (meter "Meter B"))
    (receive_example (sample "power" 1 5 (meter "Meter A"))
       (started definitions)).

Definition group_a : Group :=
  {| g_timestamp := 1000000000; g_tags := meter_tags "Meter\ A";
     g_fields := [("power", VStr "5i")] |}.

Definition group_b : Group :=
  {| g_timestamp := 2000000000; g_tags := meter_tags "Meter\ B";
     g_fields := [("power", VStr "5i")] |}.

(** A plugin with a batch size of 0 and one entry in its queue. *)
Definition zero_batch : InfluxDB :=
  set_send_queue ["a"]
    (init {| cfg_url := "http://1.2.3.4:8086"; cfg_database := "openmotics";
             cfg_batch_size := Some 0 |}).

Definition uptime (timestamp value : Z) : Metric :=
  sample "uptime" timestamp value [("id", VInt 0)].

(** Under the mixed definitions: one meter has reported. *)
Definition one_meter_mixed : InfluxDB :=
  receive_example (sample "power" 1 5 (meter "Meter A")) (started mixed_definitions).

(** Under the mixed definitions: two meters have reported, then an uptime
    arrives at the timestamp 5. *)
Definition uptime_at_5 : InfluxDB :=
  receive_example (uptime 5 7) (two_meters mixed_definitions).

Definition uptime_group (timestamp : Z) (value : string) : Group :=
  new_group timestamp id_tags "uptime" (VStr value).

(** A plugin with a batch size of 2 and three entries in its queue, [a]
    being the oldest. *)
Definition three_queued : InfluxDB :=
  set_send_queue ["c"; "b"; "a"]
    (init {| cfg_url := "http://1.2.3.4:8086"; cfg_database := "openmotics";
             cfg_batch_size := Some 2 |}).

(** A plugin without a database name, which is therefore disabled. *)
Definition disabled_plugin : InfluxDB :=
  definitions_loaded example_definitions
    (init {| cfg_url := "http://1.2.3.4:8086"; cfg_database := "";
             cfg_batch_size := None |}).

Definition voltage (timestamp value : Z) : Metric :=
  sample "voltage" timestamp value (meter "Meter B").

(** Under the mixed definitions: after the uptime at the timestamp 5, one
    at the timestamp 7. *)
Definition two_uptimes : InfluxDB := receive_example (uptime 7 8) uptime_at_5.

(** A text of two lines. *)
Definition two_lines : string :=
  String "a" (String "010" (String "b" EmptyString)).

(** A turn of the sender at noon of 17 June 2017 (UTC), by the clock. *)
Definition at_noon (outcome : PostOutcome) : Turn :=
  {| turn_post := outcome; time_201 := 1497700800%Q; time_202 := 1497700800%Q |}.

(** ** Runs of the plugin *)

(** What the host and the two threads do to the plugin, one step at a
    time: a sample is received, the sender makes a turn, the loader makes a
    turn. *)
Inductive PluginOp : Type :=
| Receive (metric : Metric)
| SenderTurn (turn : Turn)
| LoaderTurn (answer : Answer).

(** The loader turn that sets the definitions. *)
Definition loads (op : PluginOp) : bool :=
  match op with
  | LoaderTurn (Answered true (Some _)) => true
  | _ => false
  end.

Section Runs.

Context {fmt : PyFormat}.

Definition plugin_step (self : InfluxDB) (op : PluginOp) : InfluxDB :=
  match op with
  | Receive metric => _receive_metric_data metric self
  | SenderTurn turn => sender_cycle turn self
  | LoaderTurn answer => _load_definitions [answer] self
  end.

Definition run_plugin (ops : list PluginOp) (self : InfluxDB) : InfluxDB :=
  foldl plugin_step self ops.

End Runs.

(** An open group as the ingestion makes it: at least one field, distinct
    keys in its two dictionaries, a ['type'] among its tags, and a
    timestamp that is a whole number of seconds, in nanoseconds. *)
Definition well_formed_group (g : Group) : Prop :=
  g_fields g <> []
  /\ NoDup (dict_keys (g_tags g))
  /\ NoDup (dict_keys (g_fields g))
  /\ is_Some (dict_get (g_tags g) "type")
  /\ exists seconds : Z, g_timestamp g = seconds * 1000000000.

(** The escaped text has a backslash before each of its spaces. *)
Fixpoint spaces_escaped (previous : ascii) (s : string) : bool :=
  match s with
  | EmptyString => true
  | String c r =>
      (negb (Ascii.eqb c " ") || Ascii.eqb previous "\")
      && spaces_escaped c r
  end.

(** The number of spaces of a string. *)
Fixpoint count_spaces (s : string) : nat :=
  match s with
  | EmptyString => 0
  | String c r => (if Ascii.eqb c " " then 1 else 0) + count_spaces r
  end.

(** ** More sample data *)

(** The answers of a definitions service that is down, then not ready, then
    answers twice. *)
Definition example_answers : list Answer :=
  [AnswerRaises (ConnectionError "Connection refused"); Answered false None;
   Answered true (Some example_definitions);
   Answered true (Some mixed_definitions)].

(** A configuration without a database name. *)
Definition no_database : Config :=
  {| cfg_url := "http://1.2.3.4:8086"; cfg_database := "";
     cfg_batch_size := None |}.

Definition moved_config : Config :=
  {| cfg_url := "http://5.6.7.8:8086"; cfg_database := "metrics";
     cfg_batch_size := Some 5 |}.

(** A sample without the ['device'] its definition asks for. *)
Definition power_without_device : Metric := sample "power" 3 5 [("id", VInt 0)].

Definition busy_ops : list PluginOp :=
  [Receive (voltage 2 230); SenderTurn (at_noon (Response 204 ""));
   LoaderTurn (Answered true (Some example_definitions));
   Receive (voltage 3 231);
   SenderTurn (at_noon (PostRaises (ConnectionError "Connection refused")))].

Definition early_ops : list PluginOp :=
  [Receive (voltage 2 230);
   LoaderTurn (AnswerRaises (ConnectionError "Connection refused"));
   LoaderTurn (Answered true None); SenderTurn (at_noon (Response 204 ""));
   Receive (voltage 3 231)].

(** * Properties *)

(** ** Strings *)

Lemma append_empty_r (s : string) : s +:+ "" = s.
Proof.
  induction s as [|c s IH]; [reflexivity|].
  change (String c (s +:+ "") = String c s). now rewrite IH.
Qed.

Lemma append_assoc (s t u : string) : (s +:+ t) +:+ u = s +:+ t +:+ u.
Proof.
  induction s as [|c s IH]; [reflexivity|].
  change (String c ((s +:+ t) +:+ u) = String c (s +:+ t +:+ u)).
  now rewrite IH.
Qed.

Lemma repr_char_plain (c : ascii) :
  plain_char c = true -> repr_char "'" c = String c "".
Proof.
  intros Hc. unfold plain_char in Hc.
  apply andb_prop in Hc as [Hc H4]. apply andb_prop in Hc as [Hc H3].
  apply andb_prop in Hc as [H1 H2].
  apply negb_true_iff in H3, H4.
  apply Nat.leb_le in H1. apply Nat.ltb_lt in H2.
  assert (T : Ascii.eqb c "009" = false)
    by (apply Ascii.eqb_neq; intros ->; vm_compute in H1; lia).
  assert (N : Ascii.eqb c "010" = false)
    by (apply Ascii.eqb_neq; intros ->; vm_compute in H1; lia).
  assert (R : Ascii.eqb c "013" = false)
    by (apply Ascii.eqb_neq; intros ->; vm_compute in H1; lia).
  assert (L : (nat_of_ascii c <? 32)%nat = false) by (apply Nat.ltb_ge; lia).
  assert (U : (127 <=? nat_of_ascii c)%nat = false)
    by (apply Nat.leb_gt; lia).
  unfold repr_char. now rewrite H3, H4, T, N, R, L, U.
Qed.

Lemma py_repr_plain (s : string) :
  plain s = true -> py_repr s = String "'" (s +:+ "'").
Proof.
  intros H.
  assert (Hq : has_char "'" s = false).
  { induction s as [|c r IH]; [reflexivity|]. simpl in *.
    apply andb_prop in H as [Hc Hr]. rewrite (IH Hr), orb_false_r.
    unfold plain_char in Hc. apply andb_prop in Hc as [Hc _].
    apply andb_prop in Hc as [_ Hc]. now apply negb_true_iff. }
  unfold py_repr. rewrite Hq. simpl. do 2 f_equal. clear Hq.
  induction s as [|c r IH]; [reflexivity|]. simpl in *.
  apply andb_prop in H as [Hc Hr].
  now rewrite (IH Hr), (repr_char_plain c Hc).
Qed.

Lemma has_char_append (c : ascii) (s t : string) :
  has_char c (s +:+ t) = has_char c s || has_char c t.
Proof.
  induction s as [|a s IH]; [reflexivity|].
  change (String a s +:+ t) with (String a (s +:+ t)). simpl.
  now rewrite IH, orb_assoc.
Qed.

Lemma pretty_N_go_on_one_line (x : N) (s : string) :
  has_char "010" s = false -> has_char "010" (pretty_N_go x s) = false.
Proof.
  revert s. induction (N.lt_wf_0 x) as [x _ IH]; intros s Hs.
  destruct (N.eq_dec x 0%N) as [->|Hx]; [exact Hs|].
  rewrite pretty_N_go_step by lia. apply IH; [apply N.div_lt; lia|].
  simpl. rewrite Hs, orb_false_r.
  unfold pretty_N_char. now repeat case_match.
Qed.

Lemma pretty_Z_on_one_line (z : Z) : has_char "010" (pretty z) = false.
Proof.
  assert (H : forall p : positive, has_char "010" (pretty p) = false).
  { intros p. unfold pretty, pretty_positive, pretty, pretty_N.
    case_decide; [reflexivity|]. now apply pretty_N_go_on_one_line. }
  destruct z as [|p|p]; [reflexivity | apply H|].
  unfold pretty, pretty_Z. rewrite has_char_append. now rewrite (H p).
Qed.

(** ** Floats and statistics *)




Lemma div_half_even_exact (a d : Z) : 0 < d -> div_half_even (a * d) d = a.
Proof.
  intros Hd. unfold div_half_even.
  rewrite Z.div_mul, Z.mod_mul by lia.
  destruct (Z.compare_spec (2 * 0) d); lia.
Qed.

Lemma float_of_int_exact (m e : Z) :
  Z.abs m <= 2 ^ 53 -> 0 <= e -> float_of_int (m * 2 ^ e) = m * 2 ^ e.
Proof.
  intros Hm He. unfold float_of_int.
  destruct (Z.leb_spec (Z.log2 (Z.abs (m * 2 ^ e)) - 52) 0) as [_|Hbig];
    [reflexivity|].
  destruct (Z.eq_dec m 0) as [->|Hm0]; [now rewrite Z.mul_0_l in *|].
  assert (Hpe : 0 < 2 ^ e) by (apply Z.pow_pos_nonneg; lia).
  rewrite Z.abs_mul, (Z.abs_eq (2 ^ e)) in * by lia.
  rewrite Z.log2_mul_pow2 in * by lia.
  set (k := e + Z.log2 (Z.abs m) - 52) in *.
  assert (Hlog : Z.log2 (Z.abs m) <= 53).
  { change 53 with (Z.log2 (2 ^ 53)). now apply Z.log2_le_mono. }
  assert (Hdiv : exists c, Z.abs m * 2 ^ e = c * 2 ^ k).
  { destruct (Z.eq_dec (Z.log2 (Z.abs m)) 53) as [E53|N53].
    - assert (Z.abs m = 2 ^ 53) as ->.
      { apply Z.le_antisymm; [exact Hm|].
        rewrite <- E53. apply Z.log2_spec. lia. }
      exists (2 ^ 52). unfold k. rewrite E53.
      rewrite <- !Z.pow_add_r by lia. f_equal. lia.
    - exists (Z.abs m * 2 ^ (52 - Z.log2 (Z.abs m))).
      rewrite <- Z.mul_assoc, <- Z.pow_add_r by (unfold k; lia).
      do 2 f_equal. unfold k. lia. }
  destruct Hdiv as [c Hc]. rewrite Hc.
  rewrite div_half_even_exact by (apply Z.pow_pos_nonneg; lia).
  rewrite Z.sgn_mul, (Z.sgn_pos (2 ^ e)), Z.mul_1_r by lia.
  rewrite <- Z.mul_assoc, <- Hc, Z.mul_assoc.
  now rewrite (Z.mul_comm (Z.sgn m)), Z.abs_sgn.
Qed.

Lemma float_of_int_seconds (seconds : Z) :
  Z.abs seconds <= 4611686018 ->
  float_of_int (seconds * 1000000000) = seconds * 1000000000.
Proof.
  intros H.
  replace (seconds * 1000000000) with ((seconds * 1953125) * 2 ^ 9) by lia.
  apply float_of_int_exact; lia.
Qed.

(** [float(n)] is within half a unit in the last place of [n]. *)
Lemma float_of_int_near (n : Z) :
  let ulp := 2 ^ (Z.log2 (Z.abs n) - 52) in
  2 ^ 53 <= Z.abs n ->
  (ulp | float_of_int n) /\ 2 * Z.abs (float_of_int n - n) <= ulp.
Proof.
  intros ulp Hn. unfold float_of_int. fold ulp.
  assert (Hlog : 53 <= Z.log2 (Z.abs n)).
  { change 53 with (Z.log2 (2 ^ 53)). now apply Z.log2_le_mono. }
  destruct (Z.leb_spec (Z.log2 (Z.abs n) - 52) 0) as [Hle|_]; [lia|].
  assert (Hu : 0 < ulp) by (apply Z.pow_pos_nonneg; lia).
  split; [apply Z.divide_factor_r|].
  pose proof (Z.div_mod (Z.abs n) ulp ltac:(lia)) as Hdm.
  pose proof (Z.mod_pos_bound (Z.abs n) ulp Hu) as Hr.
  unfold div_half_even.
  destruct (Z.compare_spec (2 * (Z.abs n mod ulp)) ulp) as [E|L|G];
    [destruct (Z.even (Z.abs n / ulp))|..];
    destruct (Z.abs_spec n) as [[Hs Ha]|[Hs Ha]];
    first [rewrite Z.sgn_pos by lia | rewrite Z.sgn_neg by lia]; nia.
Qed.

(** ** Equality of Python values *)

Lemma py_eq_refl (a : PyVal) : py_eq a a = true.
Proof.
  destruct a; simpl; try apply Qeq_bool_refl; try reflexivity.
  apply String.eqb_refl.
Qed.

Lemma py_eq_sym (a b : PyVal) : py_eq a b = py_eq b a.
Proof.
  destruct a, b; simpl; try reflexivity; try apply Qeq_bool_comm.
  apply String.eqb_sym.
Qed.

Lemma py_eq_trans (a b c : PyVal) :
  py_eq a b = true -> py_eq b c = true -> py_eq a c = true.
Proof.
  destruct a, b, c; simpl; try discriminate; try reflexivity;
    try apply Qeq_bool_trans.
  intros H1 H2. apply String.eqb_eq in H1, H2. subst. apply String.eqb_refl.
Qed.

Lemma lookup_eq_refl (o : option PyVal) : lookup_eq o o = true.
Proof. destruct o; simpl; [apply py_eq_refl | reflexivity]. Qed.

Lemma lookup_eq_default (o1 o2 : option PyVal) :
  lookup_eq o1 o2 = true -> py_eq (default VNone o1) (default VNone o2) = true.
Proof. destruct o1, o2; simpl; try discriminate; auto. Qed.

(** ** Dictionaries *)

Lemma dict_get_None (d : Dict) (k : string) :
  dict_get d k = None <-> k ∉ dict_keys d.
Proof.
  induction d as [|[k' v] d IH]; simpl.
  - split; [intros _; apply not_elem_of_nil | reflexivity].
  - destruct (String.eqb k' k) eqn:E.
    + apply String.eqb_eq in E. subst. split; [discriminate|].
      intros H. exfalso. apply H. left.
    + apply String.eqb_neq in E. rewrite IH. rewrite not_elem_of_cons.
      split; [intros H; split; [congruence | exact H] | intros [_ H]; exact H].
Qed.

Lemma dict_get_Some_key (d : Dict) (k : string) (v : PyVal) :
  dict_get d k = Some v -> k ∈ dict_keys d.
Proof.
  intros H. destruct (decide (k ∈ dict_keys d)) as [|N]; [assumption|].
  apply dict_get_None in N. congruence.
Qed.

Lemma dict_eq_lookup (d1 d2 : Dict) (k : string) :
  dict_eq d1 d2 = true -> lookup_eq (dict_get d1 k) (dict_get d2 k) = true.
Proof.
  unfold dict_eq. rewrite forallb_forall. intros H.
  destruct (decide (k ∈ dict_keys d1 ++ dict_keys d2)) as [I|N].
  - apply H. now apply list_elem_of_In.
  - rewrite elem_of_app in N.
    assert (dict_get d1 k = None) as -> by (apply dict_get_None; tauto).
    assert (dict_get d2 k = None) as -> by (apply dict_get_None; tauto).
    reflexivity.
Qed.

Lemma dict_eq_intro (d1 d2 : Dict) :
  (forall k, lookup_eq (dict_get d1 k) (dict_get d2 k) = true) ->
  dict_eq d1 d2 = true.
Proof. intros H. unfold dict_eq. apply forallb_forall. intros k _. apply H. Qed.

Lemma dict_eq_refl (d : Dict) : dict_eq d d = true.
Proof. apply dict_eq_intro. intros k. apply lookup_eq_refl. Qed.

Lemma group_eq_refl (g : Group) : group_eq g g = true.
Proof.
  unfold group_eq. now rewrite Z.eqb_refl, !dict_eq_refl.
Qed.

Lemma dict_get_set_eq (d : Dict) (k : string) (v : PyVal) :
  dict_get (dict_set d k v) k = Some v.
Proof.
  induction d as [|[k' v'] d IH]; simpl.
  - now rewrite String.eqb_refl.
  - destruct (String.eqb k' k) eqn:E; simpl.
    + now rewrite String.eqb_refl.
    + now rewrite E.
Qed.

Lemma dict_get_set_ne (d : Dict) (k k' : string) (v : PyVal) :
  k <> k' -> dict_get (dict_set d k v) k' = dict_get d k'.
Proof.
  intros N. induction d as [|[k0 v0] d IH]; simpl.
  - apply String.eqb_neq in N. now rewrite N.
  - destruct (String.eqb k0 k) eqn:E; simpl.
    + apply String.eqb_eq in E. subst k0.
      apply String.eqb_neq in N. now rewrite N.
    + now rewrite IH.
Qed.

Lemma dict_keys_set_present (d : Dict) (k : string) (v : PyVal) :
  k ∈ dict_keys d -> dict_keys (dict_set d k v) = dict_keys d.
Proof.
  induction d as [|[k' v'] d IH]; simpl; intros H.
  - now apply elem_of_nil in H.
  - destruct (String.eqb k' k) eqn:E; simpl.
    + apply String.eqb_eq in E. now subst.
    + f_equal. apply IH. apply elem_of_cons in H as [->|H]; [|assumption].
      now rewrite String.eqb_refl in E.
Qed.

Lemma dict_keys_set_absent (d : Dict) (k : string) (v : PyVal) :
  k ∉ dict_keys d -> dict_keys (dict_set d k v) = dict_keys d ++ [k].
Proof.
  induction d as [|[k' v'] d IH]; simpl; intros H.
  - reflexivity.
  - apply not_elem_of_cons in H as [N H].
    assert (String.eqb k' k = false) as -> by (apply String.eqb_neq; congruence).
    simpl. f_equal. now apply IH.
Qed.

Lemma dict_keys_set_incl (d : Dict) (k k' : string) (v : PyVal) :
  k' ∈ dict_keys d -> k' ∈ dict_keys (dict_set d k v).
Proof.
  intros H. destruct (decide (k ∈ dict_keys d)) as [I|N].
  - now rewrite dict_keys_set_present.
  - rewrite dict_keys_set_absent by assumption. apply elem_of_app. now left.
Qed.

(** ** The nested dictionary of pending groups *)

Lemma entries_of_set_entries (pm : Pending) (source metric_type : string)
    (entries : list Group) :
  entries_of (set_entries source metric_type entries pm) source metric_type
  = entries.
Proof.
  unfold entries_of, set_entries. rewrite lookup_insert_eq. simpl.
  now rewrite lookup_insert_eq.
Qed.

Lemma entries_of_set_entries_ne (pm : Pending) (source metric_type source'
    metric_type' : string) (entries : list Group) :
  (source, metric_type) <> (source', metric_type') ->
  entries_of (set_entries source metric_type entries pm) source' metric_type'
  = entries_of pm source' metric_type'.
Proof.
  intros N. unfold entries_of, set_entries.
  destruct (decide (source = source')) as [<-|Ns].
  - rewrite lookup_insert_eq. simpl.
    rewrite lookup_insert_ne by congruence.
    destruct (pm !! source); reflexivity.
  - now rewrite lookup_insert_ne.
Qed.

Lemma set_entries_twice (pm : Pending) (source metric_type : string)
    (entries entries' : list Group) :
  set_entries source metric_type entries'
    (set_entries source metric_type entries pm)
  = set_entries source metric_type entries' pm.
Proof.
  unfold set_entries. rewrite lookup_insert_eq. simpl.
  now rewrite !insert_insert_eq.
Qed.

(** ** The test of the scan *)

Section Scan.

Context {fmt : PyFormat}.

Lemma build_tags_keys (metric : Metric) (definition_tags : list string)
    (tags0 tags : Dict) :
  build_tags metric definition_tags tags0 = Return tags ->
  forall k, k ∈ definition_tags \/ k ∈ dict_keys tags0 -> k ∈ dict_keys tags.
Proof.
  revert tags0. induction definition_tags as [|tag rest IH]; simpl; intros tags0 H k Hk.
  - injection H as <-. destruct Hk as [Hk|Hk]; [now apply elem_of_nil in Hk | assumption].
  - destruct (metric_item metric tag) as [v|e]; [|discriminate].
    apply (IH _ H). destruct Hk as [Hk|Hk].
    + apply elem_of_cons in Hk as [->|Hk]; [right | now left].
      eapply dict_get_Some_key, dict_get_set_eq.
    + right. now apply dict_keys_set_incl.
Qed.

Lemma this_one_agrees (definition_tags : list string) (tags pending_tags : Dict) :
  (forall k, k ∈ definition_tags -> k ∈ dict_keys tags) ->
  this_one definition_tags tags pending_tags
  = Return (agrees definition_tags tags pending_tags).
Proof.
  induction definition_tags as [|tag rest IH]; simpl; intros H.
  - reflexivity.
  - unfold dict_item, dict_get_default.
    destruct (dict_get tags tag) as [v|] eqn:E.
    + simpl. destruct (py_eq v (default VNone (dict_get pending_tags tag))); simpl.
      * apply IH. intros k Hk. apply H. now right.
      * reflexivity.
    + exfalso. apply dict_get_None in E. apply E, H. left.
Qed.

Lemma agrees_group_eq (definition_tags : list string) (tags : Dict)
    (g1 g2 : Group) :
  group_eq g1 g2 = true ->
  agrees definition_tags tags (g_tags g2) = true ->
  agrees definition_tags tags (g_tags g1) = true.
Proof.
  unfold group_eq. rewrite !andb_true_iff. intros [[_ Ht] _].
  unfold agrees. rewrite !forallb_forall. intros H tag Htag.
  eapply py_eq_trans; [apply (H tag Htag)|].
  rewrite py_eq_sym. apply lookup_eq_default. now apply dict_eq_lookup.
Qed.

(** [entries.remove(pending)] takes out the group the scan stopped at. *)
Lemma list_remove_first (definition_tags : list string) (tags : Dict)
    (entries : list Group) (i : nat) (pending : Group) :
  entries !! i = Some pending ->
  agrees definition_tags tags (g_tags pending) = true ->
  (forall j y, entries !! j = Some y -> (j < i)%nat ->
               agrees definition_tags tags (g_tags y) <> true) ->
  list_remove pending entries = Return (delete i entries).
Proof.
  revert i. induction entries as [|y r IH]; intros i Hi Ha Hfirst.
  - discriminate.
  - destruct i as [|i]; simpl in *.
    + injection Hi as ->. now rewrite group_eq_refl.
    + destruct (group_eq y pending) eqn:E.
      * exfalso. apply (Hfirst 0%nat y eq_refl); [lia|].
        eapply agrees_group_eq; eassumption.
      * rewrite (IH i Hi Ha); [reflexivity|].
        intros j z Hj Hlt. apply (Hfirst (S j) z Hj). lia.
Qed.

End Scan.

Section ScanLoop.

Context {fmt : PyFormat}.

Lemma first_agreeing_cons (K : list string) (tags : Dict) (g : Group)
    (rest : list Group) :
  first_agreeing K tags (g :: rest)
  = if agrees K tags (g_tags g) then Some (0%nat, g)
    else prod_map S id <$> first_agreeing K tags rest.
Proof.
  unfold first_agreeing. simpl.
  destruct (agrees K tags (g_tags g)); case_decide; congruence.
Qed.

(** The loop, started at index [length pre] with [pre] behind it, stops at
    the first group of [copy] that agrees with the sample. *)
Lemma scan_spec (source metric_type name : string) (K : list string)
    (tags : Dict) (timestamp : Z) (value : PyVal) :
  (forall k, k ∈ K -> k ∈ dict_keys tags) ->
  forall (copy pre : list Group) (self : InfluxDB),
    entries_of (_pending_metrics self) source metric_type = pre ++ copy ->
    Forall (fun g => agrees K tags (g_tags g) <> true) pre ->
    scan source metric_type name K tags timestamp value copy (length pre) self
    = match first_agreeing K tags copy with
      | Some (j, pending) =>
          if Z.eqb (g_timestamp pending) timestamp
          then (Return true,
                set_pending_metrics
                  (set_entries source metric_type
                     (<[(length pre + j)%nat := merge_field pending name value]>
                        (pre ++ copy))
                     (_pending_metrics self)) self)
          else (Return false,
                set_pending_metrics
                  (set_entries source metric_type
                     (delete (length pre + j)%nat (pre ++ copy))
                     (_pending_metrics self))
                  (set_send_queue
                     (render metric_type pending :: _send_queue self) self))
      | None => (Return false, self)
      end.
Proof.
  intros Hkeys copy. induction copy as [|g rest IH]; intros pre self Hent Hpre.
  - reflexivity.
  - rewrite first_agreeing_cons. simpl.
    unfold bind at 1, lift. rewrite (this_one_agrees _ _ _ Hkeys).
    destruct (agrees K tags (g_tags g)) eqn:Ha.
    + rewrite Nat.add_0_r.
      destruct (Z.eqb (g_timestamp g) timestamp) eqn:Ht.
      * unfold bind, update_entries, update, ret. now rewrite Hent.
      * unfold bind, update_entries, update, ret, lift, get, appendleft. simpl.
        rewrite Hent.
        rewrite (list_remove_first K tags (pre ++ g :: rest) (length pre) g).
        -- reflexivity.
        -- apply list_lookup_middle. reflexivity.
        -- assumption.
        -- intros j y Hj Hlt. rewrite lookup_app_l in Hj by assumption.
           rewrite Forall_forall in Hpre. apply Hpre.
           eapply list_elem_of_lookup_2. eassumption.
    + specialize (IH (pre ++ [g]) self).
      rewrite length_app in IH. simpl in IH. rewrite Nat.add_1_r in IH.
      rewrite IH.
      * destruct (first_agreeing K tags rest) as [[j pending]|]; simpl; [|reflexivity].
        rewrite <- !app_assoc, !Nat.add_succ_r. reflexivity.
      * rewrite <- app_assoc. exact Hent.
      * apply Forall_app. split; [assumption|].
        apply Forall_singleton. congruence.
Qed.

End ScanLoop.

Section Receive.

Context {fmt : PyFormat}.

Lemma set_send_queue_same (self : InfluxDB) :
  set_send_queue (_send_queue self) self = self.
Proof. now destruct self. Qed.

(** An accepted sample goes through step 4 as the specification words it. *)
Lemma receive_accepted (self : InfluxDB) (metric : Metric)
    (definition : MetricDefinition) (tags : Dict) :
  accepted self metric definition tags ->
  receive_try metric self = (Return tt, after_ingest self metric definition tags).
Proof.
  intros (Hen & (definitions & Hdefs & Hlook) & Htags).
  unfold receive_try. rewrite Hen, Hdefs, Hlook.
  unfold bind at 1, lift. rewrite Htags.
  unfold bind at 1, setdefault_entries, update.
  unfold bind at 1, get. cbv beta iota.
  unfold bind at 1.
  set (source := lower (m_source metric)).
  set (pm := _pending_metrics self).
  set (entries := entries_of pm source (m_type metric)).
  set (self1 := set_pending_metrics _ self).
  assert (Hent : entries_of (_pending_metrics self1) source (m_type metric)
                 = [] ++ entries).
  { unfold self1. simpl. apply entries_of_set_entries. }
  assert (Hkeys : forall k, k ∈ def_tags definition -> k ∈ dict_keys tags).
  { intros k Hk. eapply build_tags_keys; [exact Htags | now left]. }
  change 0%nat with (length (@nil Group)).
  rewrite Hent. simpl app.
  rewrite (scan_spec source (m_type metric) (m_metric metric) _ tags _ _ Hkeys
             entries [] self1 Hent (Forall_nil_2 _)).
  unfold after_ingest, ingest_bucket, bucket. fold source pm entries.
  simpl length. simpl app.
  destruct (first_agreeing (def_tags definition) tags entries)
    as [[j pending]|].
  - destruct (Z.eqb (g_timestamp pending) (m_timestamp metric * 1000000000)).
    + unfold ret. unfold self1. simpl.
      rewrite set_entries_twice, set_send_queue_same. reflexivity.
    + unfold update_entries, update, self1. simpl.
      rewrite set_entries_twice, entries_of_set_entries, set_entries_twice.
      reflexivity.
  - unfold update_entries, update, self1. simpl.
    rewrite entries_of_set_entries, set_entries_twice, set_send_queue_same.
    reflexivity.
Qed.

(** Every call of [_receive_metric_data] is of one of three kinds. *)
Lemma receive_cases (self : InfluxDB) (metric : Metric) :
  (exists definition tags,
      accepted self metric definition tags
      /\ _receive_metric_data metric self
         = after_ingest self metric definition tags)
  \/ ((forall definition tags, ~ accepted self metric definition tags)
      /\ receive_try metric self = (Return tt, self)
      /\ _receive_metric_data metric self = self)
  \/ (exists ex,
        (forall definition tags, ~ accepted self metric definition tags)
        /\ receive_try metric self = (Raise ex, self)
        /\ _receive_metric_data metric self
           = logger (py_format "Error receiving metrics: {0}"
                       [VStr (exc_str ex)]) self).
Proof.
  destruct (_enabled self) eqn:Hen.
  2:{ right; left. unfold _receive_metric_data, receive_try. rewrite Hen.
      repeat split; try reflexivity.
      intros d t (H & _). congruence. }
  destruct (_definitions self) as [definitions|] eqn:Hdefs.
  2:{ right; left. unfold _receive_metric_data, receive_try. rewrite Hen, Hdefs.
      repeat split; try reflexivity.
      intros d t (_ & (ds & H & _) & _). congruence. }
  destruct (lookup_definition definitions (m_source metric) (m_type metric)
              (m_metric metric)) as [definition|] eqn:Hlook.
  2:{ right; left. unfold _receive_metric_data, receive_try.
      rewrite Hen, Hdefs, Hlook.
      repeat split; try reflexivity.
      intros d t (_ & (ds & H & H') & _). congruence. }
  destruct (build_tags metric (def_tags definition)
              [("type", VStr (lower (m_source metric)))]) as [tags|ex] eqn:Htags.
  - left. exists definition, tags.
    assert (Hacc : accepted self metric definition tags).
    { split; [assumption|]. split; [|assumption]. eauto. }
    split; [assumption|].
    unfold _receive_metric_data. now rewrite (receive_accepted _ _ _ _ Hacc).
  - right; right. exists ex.
    assert (Htry : receive_try metric self = (Raise ex, self)).
    { unfold receive_try. rewrite Hen, Hdefs, Hlook.
      unfold bind at 1, lift. now rewrite Htags. }
    split; [|split; [assumption|]].
    + intros d t (_ & (ds & H & H') & Ht).
      assert (ds = definitions) by congruence. subst ds.
      assert (d = definition) by congruence. subst d. congruence.
    + unfold _receive_metric_data. now rewrite Htry.
Qed.

End Receive.

(** ** Equal tags *)

Lemma lookup_eq_sym (o1 o2 : option PyVal) : lookup_eq o1 o2 = lookup_eq o2 o1.
Proof. destruct o1, o2; simpl; try reflexivity. apply py_eq_sym. Qed.

Lemma lookup_eq_trans (o1 o2 o3 : option PyVal) :
  lookup_eq o1 o2 = true -> lookup_eq o2 o3 = true -> lookup_eq o1 o3 = true.
Proof.
  destruct o1, o2, o3; simpl; try discriminate; try reflexivity.
  apply py_eq_trans.
Qed.

Lemma dict_eq_sym (d1 d2 : Dict) : dict_eq d1 d2 = true -> dict_eq d2 d1 = true.
Proof.
  intros H. apply dict_eq_intro. intros k.
  rewrite lookup_eq_sym. now apply dict_eq_lookup.
Qed.

Lemma dict_eq_trans (d1 d2 d3 : Dict) :
  dict_eq d1 d2 = true -> dict_eq d2 d3 = true -> dict_eq d1 d3 = true.
Proof.
  intros H1 H2. apply dict_eq_intro. intros k.
  eapply lookup_eq_trans; apply dict_eq_lookup; eassumption.
Qed.

Section Shaped.

Context {fmt : PyFormat}.

Lemma build_tags_other (metric : Metric) (K : list string) (tags0 tags : Dict) :
  build_tags metric K tags0 = Return tags ->
  forall k, k ∉ K -> dict_get tags k = dict_get tags0 k.
Proof.
  revert tags0. induction K as [|tag rest IH]; simpl; intros tags0 H k Hk.
  - now injection H as <-.
  - destruct (metric_item metric tag) as [v|e]; [|discriminate].
    apply not_elem_of_cons in Hk as [Hne Hk].
    rewrite (IH _ H k Hk). apply dict_get_set_ne. congruence.
Qed.

Lemma build_tags_shaped (metric : Metric) (source : string) (K : list string)
    (tags : Dict) :
  build_tags metric K [("type", VStr source)] = Return tags ->
  shaped source K tags.
Proof.
  intros H. split.
  - intros k Hk.
    assert (k ∈ dict_keys tags) as Hin
      by (eapply build_tags_keys; [exact H | now left]).
    destruct (dict_get tags k) eqn:E; [eauto|].
    apply dict_get_None in E. contradiction.
  - intros k Hk. eapply build_tags_other; eassumption.
Qed.

(** On tags of one shape, agreeing on the tag keys is being equal. *)
Lemma shaped_agrees (source : string) (K : list string) (tags1 tags2 : Dict) :
  shaped source K tags1 -> shaped source K tags2 ->
  agrees K tags1 tags2 = dict_eq tags1 tags2.
Proof.
  intros [S1 O1] [S2 O2].
  destruct (dict_eq tags1 tags2) eqn:E.
  - unfold agrees. apply forallb_forall. intros k _.
    apply lookup_eq_default. now apply dict_eq_lookup.
  - destruct (agrees K tags1 tags2) eqn:A; [|reflexivity].
    rewrite <- E. symmetry. apply dict_eq_intro. intros k.
    destruct (decide (k ∈ K)) as [I|N].
    + unfold agrees in A. rewrite forallb_forall in A.
      specialize (A k (proj1 (list_elem_of_In _ _) I)).
      unfold dict_get_default in A.
      destruct (S1 k I) as [v1 E1], (S2 k I) as [v2 E2].
      rewrite E1, E2 in A |- *. exact A.
    + rewrite (O1 k N), (O2 k N). apply lookup_eq_refl.
Qed.

Lemma first_agreeing_selects (K : list string) (tags : Dict)
    (entries : list Group) (i : nat) (pending : Group) :
  first_agreeing K tags entries = Some (i, pending)
  <-> selects K tags entries i pending.
Proof.
  unfold first_agreeing, selects. rewrite list_find_Some.
  split; intros (H1 & H2 & H3); repeat split; try assumption.
  - intros j y Hj Hlt. specialize (H3 j y Hj Hlt).
    now destruct (agrees K tags (g_tags y)).
  - intros j y Hj Hlt. rewrite (H3 j y Hj Hlt). discriminate.
Qed.

Lemma first_agreeing_none (K : list string) (tags : Dict)
    (entries : list Group) :
  first_agreeing K tags entries = None
  <-> forall y, y ∈ entries -> agrees K tags (g_tags y) = false.
Proof.
  unfold first_agreeing. rewrite list_find_None, Forall_forall.
  split; intros H y Hy; specialize (H y Hy).
  - now destruct (agrees K tags (g_tags y)).
  - rewrite H. discriminate.
Qed.

Lemma selects_unique (K : list string) (tags : Dict) (entries : list Group)
    (i i' : nat) (pending pending' : Group) :
  selects K tags entries i pending -> selects K tags entries i' pending' ->
  i = i' /\ pending = pending'.
Proof.
  intros H H'. apply first_agreeing_selects in H, H'.
  rewrite H in H'. now injection H' as <- <-.
Qed.

(** In a bucket that keeps its invariant, the selected group is the only
    one that agrees with the sample. *)
Lemma selected_only (source : string) (K : list string) (tags : Dict)
    (entries : list Group) (i : nat) (pending : Group) :
  one_group_per_tagset entries ->
  (forall g, g ∈ entries -> shaped source K (g_tags g)) ->
  shaped source K tags ->
  selects K tags entries i pending ->
  forall j y, entries !! j = Some y -> j <> i ->
              agrees K tags (g_tags y) = false.
Proof.
  intros Hone Hshape Htags (Hi & Ha & _) j y Hj Hne.
  destruct (agrees K tags (g_tags y)) eqn:A; [|reflexivity].
  assert (Sy : shaped source K (g_tags y))
    by (eapply Hshape, list_elem_of_lookup_2; eassumption).
  assert (Sp : shaped source K (g_tags pending))
    by (eapply Hshape, list_elem_of_lookup_2; eassumption).
  rewrite (shaped_agrees _ _ _ _ Htags Sy) in A.
  rewrite (shaped_agrees _ _ _ _ Htags Sp) in Ha.
  rewrite <- (Hone j i y pending Hj Hi Hne).
  symmetry. eapply dict_eq_trans; [apply dict_eq_sym|]; eassumption.
Qed.

End Shaped.

Section Step.

Context {fmt : PyFormat}.

(** The three ways through step 4. *)
Lemma ingest_bucket_cases (metric_type name : string) (K : list string)
    (tags : Dict) (timestamp : Z) (value : PyVal) (entries : list Group) :
  (exists i pending,
      selects K tags entries i pending /\ g_timestamp pending = timestamp
      /\ ingest_bucket metric_type name K tags timestamp value entries
         = (<[i := merge_field pending name value]> entries, []))
  \/ (exists i pending,
        selects K tags entries i pending /\ g_timestamp pending <> timestamp
        /\ ingest_bucket metric_type name K tags timestamp value entries
           = (delete i entries ++ [new_group timestamp tags name value],
              [render metric_type pending]))
  \/ ((forall y, y ∈ entries -> agrees K tags (g_tags y) = false)
      /\ ingest_bucket metric_type name K tags timestamp value entries
         = (entries ++ [new_group timestamp tags name value], [])).
Proof.
  unfold ingest_bucket.
  destruct (first_agreeing K tags entries) as [[i pending]|] eqn:F.
  - apply first_agreeing_selects in F.
    destruct (Z.eqb (g_timestamp pending) timestamp) eqn:T.
    + left. exists i, pending. apply Z.eqb_eq in T. auto.
    + right; left. exists i, pending. apply Z.eqb_neq in T. auto.
  - right; right. split; [|reflexivity]. now apply first_agreeing_none.
Qed.

Lemma after_ingest_bucket (self : InfluxDB) (metric : Metric)
    (definition : MetricDefinition) (tags : Dict) :
  bucket (after_ingest self metric definition tags) metric
  = fst (ingest_bucket (m_type metric) (m_metric metric) (def_tags definition)
           tags (m_timestamp metric * 1000000000)
           (encode_value (m_value metric)) (bucket self metric)).
Proof.
  unfold after_ingest. destruct (ingest_bucket _ _ _ _ _ _ _) as [entries closed].
  unfold bucket. simpl. apply entries_of_set_entries.
Qed.

Lemma after_ingest_other (self : InfluxDB) (metric : Metric)
    (definition : MetricDefinition) (tags : Dict) (source metric_type : string) :
  (lower (m_source metric), m_type metric) <> (source, metric_type) ->
  entries_of (_pending_metrics (after_ingest self metric definition tags))
    source metric_type
  = entries_of (_pending_metrics self) source metric_type.
Proof.
  intros N. unfold after_ingest.
  destruct (ingest_bucket _ _ _ _ _ _ _) as [entries closed]. simpl.
  now apply entries_of_set_entries_ne.
Qed.

Lemma after_ingest_queue (self : InfluxDB) (metric : Metric)
    (definition : MetricDefinition) (tags : Dict) :
  _send_queue (after_ingest self metric definition tags)
  = snd (ingest_bucket (m_type metric) (m_metric metric) (def_tags definition)
           tags (m_timestamp metric * 1000000000)
           (encode_value (m_value metric)) (bucket self metric))
    ++ _send_queue self.
Proof.
  unfold after_ingest. now destruct (ingest_bucket _ _ _ _ _ _ _).
Qed.

Lemma after_ingest_config (self : InfluxDB) (metric : Metric)
    (definition : MetricDefinition) (tags : Dict) :
  _enabled (after_ingest self metric definition tags) = _enabled self
  /\ _definitions (after_ingest self metric definition tags) = _definitions self.
Proof.
  unfold after_ingest. now destruct (ingest_bucket _ _ _ _ _ _ _).
Qed.

Lemma receive_config (self : InfluxDB) (metric : Metric) :
  _enabled (_receive_metric_data metric self) = _enabled self
  /\ _definitions (_receive_metric_data metric self) = _definitions self.
Proof.
  destruct (receive_cases self metric)
    as [(d & t & _ & ->)|[(_ & _ & ->)|(ex & _ & _ & ->)]].
  - apply after_ingest_config.
  - auto.
  - auto.
Qed.

Lemma accepted_config (self self' : InfluxDB) (metric : Metric)
    (definition : MetricDefinition) (tags : Dict) :
  _enabled self' = _enabled self -> _definitions self' = _definitions self ->
  accepted self metric definition tags -> accepted self' metric definition tags.
Proof. unfold accepted. intros -> ->. auto. Qed.

(** ** The invariant of a bucket *)

Lemma one_group_insert (entries : list Group) (i : nat) (pending pending' : Group) :
  entries !! i = Some pending -> g_tags pending' = g_tags pending ->
  one_group_per_tagset entries ->
  one_group_per_tagset (<[i := pending']> entries).
Proof.
  intros Hi Ht Hone a b ga gb Ha Hb Hab.
  assert (forall c gc, <[i := pending']> entries !! c = Some gc ->
            exists gc', entries !! c = Some gc' /\ g_tags gc = g_tags gc') as Hold.
  { intros c gc Hc. destruct (decide (c = i)) as [->|Hci].
    - rewrite list_lookup_insert_eq in Hc by (eapply lookup_lt_Some; eassumption).
      injection Hc as <-. eauto.
    - rewrite list_lookup_insert_ne in Hc by congruence. eauto. }
  destruct (Hold a ga Ha) as (ga' & Ha' & ->).
  destruct (Hold b gb Hb) as (gb' & Hb' & ->).
  eapply Hone; eassumption.
Qed.

Lemma lookup_delete_inv (entries : list Group) (i c : nat) (g : Group) :
  delete i entries !! c = Some g ->
  exists c', entries !! c' = Some g /\ c' <> i
             /\ c' = (if decide (c < i)%nat then c else S c).
Proof.
  intros H. case_decide as Hlt.
  - rewrite list_lookup_delete_lt in H by assumption. exists c. split_and!; auto; lia.
  - rewrite list_lookup_delete_ge in H by lia. exists (S c). split_and!; auto; lia.
Qed.

Lemma one_group_delete (entries : list Group) (i : nat) :
  one_group_per_tagset entries -> one_group_per_tagset (delete i entries).
Proof.
  intros Hone a b ga gb Ha Hb Hab.
  destruct (lookup_delete_inv _ _ _ _ Ha) as (a' & Ha' & _ & Ea).
  destruct (lookup_delete_inv _ _ _ _ Hb) as (b' & Hb' & _ & Eb).
  apply (Hone a' b' ga gb Ha' Hb').
  repeat case_decide; lia.
Qed.

Lemma one_group_snoc (entries : list Group) (g : Group) :
  one_group_per_tagset entries ->
  (forall y, y ∈ entries -> dict_eq (g_tags g) (g_tags y) = false) ->
  one_group_per_tagset (entries ++ [g]).
Proof.
  intros Hone Hnew a b ga gb Ha Hb Hab.
  assert (forall d1 d2, dict_eq d1 d2 = false -> dict_eq d2 d1 = false) as Hsym.
  { intros d1 d2 H. destruct (dict_eq d2 d1) eqn:E; [|reflexivity].
    apply dict_eq_sym in E. congruence. }
  apply lookup_snoc_Some in Ha as [[La Ha]|[La <-]];
    apply lookup_snoc_Some in Hb as [[Lb Hb]|[Lb <-]].
  - eapply Hone; eassumption.
  - apply Hsym, Hnew. eapply list_elem_of_lookup_2; eassumption.
  - apply Hnew. eapply list_elem_of_lookup_2; eassumption.
  - lia.
Qed.

End Step.

Section Invariant.

Context {fmt : PyFormat}.

Lemma bucket_inv_shaped (definitions : Definitions) (metric : Metric)
    (definition : MetricDefinition) (entries : list Group) :
  homogeneous definitions ->
  lookup_definition definitions (m_source metric) (m_type metric)
    (m_metric metric) = Some definition ->
  bucket_inv definitions (lower (m_source metric)) (m_type metric) entries ->
  forall g, g ∈ entries ->
    shaped (lower (m_source metric)) (def_tags definition) (g_tags g).
Proof.
  intros Hhom Hlook [_ Hshape] g Hg.
  destruct (Hshape g Hg) as (source' & name & definition' & Hlow & Hlook' & Hs).
  now rewrite (Hhom _ _ _ _ _ _ _ (eq_sym Hlow) Hlook Hlook').
Qed.

Lemma bucket_inv_ingest (definitions : Definitions) (metric : Metric)
    (definition : MetricDefinition) (tags : Dict) (entries : list Group) :
  homogeneous definitions ->
  lookup_definition definitions (m_source metric) (m_type metric)
    (m_metric metric) = Some definition ->
  build_tags metric (def_tags definition)
    [("type", VStr (lower (m_source metric)))] = Return tags ->
  bucket_inv definitions (lower (m_source metric)) (m_type metric) entries ->
  bucket_inv definitions (lower (m_source metric)) (m_type metric)
    (fst (ingest_bucket (m_type metric) (m_metric metric) (def_tags definition)
            tags (m_timestamp metric * 1000000000)
            (encode_value (m_value metric)) entries)).
Proof.
  intros Hhom Hlook Htags Hinv.
  pose proof (bucket_inv_shaped _ _ _ _ Hhom Hlook Hinv) as Hshaped.
  pose proof (build_tags_shaped _ _ _ _ Htags) as Stags.
  destruct Hinv as [Hone Hdefs].
  assert (Hnew : exists source' name definition',
             lower source' = lower (m_source metric)
             /\ lookup_definition definitions source' (m_type metric) name
                = Some definition'
             /\ shaped (lower (m_source metric)) (def_tags definition') tags)
    by (exists (m_source metric), (m_metric metric), definition; auto).
  destruct (ingest_bucket_cases (m_type metric) (m_metric metric)
              (def_tags definition) tags (m_timestamp metric * 1000000000)
              (encode_value (m_value metric)) entries)
    as [(i & pending & Hsel & Ht & ->)|[(i & pending & Hsel & Ht & ->)|(Hno & ->)]];
    simpl.
  - destruct Hsel as (Hi & _). split.
    + eapply one_group_insert; [eassumption | reflexivity | assumption].
    + intros g Hg. apply list_elem_of_lookup in Hg as [c Hc].
      destruct (decide (c = i)) as [->|Hci].
      * rewrite list_lookup_insert_eq in Hc by (eapply lookup_lt_Some; eassumption).
        injection Hc as <-. simpl.
        apply Hdefs. eapply list_elem_of_lookup_2; eassumption.
      * rewrite list_lookup_insert_ne in Hc by congruence.
        apply Hdefs. eapply list_elem_of_lookup_2; eassumption.
  - split.
    + apply one_group_snoc; [now apply one_group_delete|].
      intros y Hy. apply list_elem_of_lookup in Hy as [c Hc].
      destruct (lookup_delete_inv _ _ _ _ Hc) as (c' & Hc' & Hne & _).
      simpl.
      rewrite <- (shaped_agrees (lower (m_source metric)) (def_tags definition));
        [|assumption|eapply Hshaped, list_elem_of_lookup_2; eassumption].
      eapply selected_only; eassumption.
    + intros g Hg. apply elem_of_app in Hg as [Hg|Hg].
      * apply Hdefs. apply list_elem_of_lookup in Hg as [c Hc].
        destruct (lookup_delete_inv _ _ _ _ Hc) as (c' & Hc' & _).
        eapply list_elem_of_lookup_2; eassumption.
      * apply list_elem_of_singleton in Hg as ->. exact Hnew.
  - split.
    + apply one_group_snoc; [assumption|].
      intros y Hy. simpl.
      rewrite <- (shaped_agrees (lower (m_source metric)) (def_tags definition));
        auto.
    + intros g Hg. apply elem_of_app in Hg as [Hg|Hg].
      * now apply Hdefs.
      * apply list_elem_of_singleton in Hg as ->. exact Hnew.
Qed.

Lemma plugin_inv_receive (self : InfluxDB) (metric : Metric) :
  plugin_inv self -> plugin_inv (_receive_metric_data metric self).
Proof.
  intros Hinv.
  destruct (receive_cases self metric)
    as [(d & t & Hacc & ->)|[(_ & _ & ->)|(ex & _ & _ & ->)]];
    [|assumption|assumption].
  unfold plugin_inv in *.
  destruct (after_ingest_config self metric d t) as [_ ->].
  destruct Hacc as (_ & (definitions & Hdefs & Hlook) & Htags).
  rewrite Hdefs in *. intros Hhom source metric_type.
  destruct (decide ((lower (m_source metric), m_type metric)
                    = (source, metric_type))) as [E|N].
  - injection E as <- <-.
    change (entries_of (_pending_metrics (after_ingest self metric d t))
              (lower (m_source metric)) (m_type metric))
      with (bucket (after_ingest self metric d t) metric).
    rewrite after_ingest_bucket.
    apply bucket_inv_ingest; auto.
  - rewrite after_ingest_other by assumption. now apply Hinv.
Qed.

(** What a turn of the sender does to the attributes other than the
    statistics and the log. *)
Lemma sender_cycle_parts (turn : Turn) (self : InfluxDB) :
  let data := fst (drain (_batch_size self) [] (_send_queue self)) in
  let self' := sender_cycle turn self in
  _send_queue self' = snd (drain (_batch_size self) [] (_send_queue self))
  /\ posted self'
     = (if (0 <? length data)%nat
        then {| req_url := _endpoint self;
                req_data := join (String "010" EmptyString) data |}
               :: posted self
        else posted self)
  /\ _batch_size self' = _batch_size self
  /\ _endpoint self' = _endpoint self
  /\ _enabled self' = _enabled self
  /\ _pending_metrics self' = _pending_metrics self
  /\ _definitions self' = _definitions self.
Proof.
  unfold sender_cycle, sender_try, sender_stats, bind, get, update, lift, ret.
  destruct (drain (_batch_size self) [] (_send_queue self)) as [data q]. simpl.
  destruct (0 <? length data)%nat; [|auto 10].
  destruct (turn_post turn) as [status_code text|ex]; [|simpl; auto 10].
  destruct (negb (Z.eqb status_code 204)); simpl;
    (destruct (Qlt_bool _ _); [|simpl; auto 10]);
    (destruct (stats_text _); [|simpl; auto 10]);
    (destruct (stats_text _); simpl; auto 10).
Qed.

Lemma sender_cycle_pending (turn : Turn) (self : InfluxDB) :
  _pending_metrics (sender_cycle turn self) = _pending_metrics self
  /\ _definitions (sender_cycle turn self) = _definitions self.
Proof. destruct (sender_cycle_parts turn self) as (_ & _ & _ & _ & _ & H). exact H. Qed.

Lemma reachable_inv (self : InfluxDB) : reachable self -> plugin_inv self.
Proof.
  induction 1 as [config|self self' _ IH Hstep].
  - intros source metric_type. reflexivity.
  - destruct Hstep as [metric self|turn self|answer self Hnone|config self].
    + now apply plugin_inv_receive.
    + unfold plugin_inv in *.
      destruct (sender_cycle_pending turn self) as [-> ->]. exact IH.
    + unfold plugin_inv in *. rewrite Hnone in IH.
      assert (Hpm : _pending_metrics (load_attempt answer self)
                    = _pending_metrics self)
        by (destruct answer as [[|] definitions|ex]; reflexivity).
      rewrite Hpm.
      destruct (_definitions (load_attempt answer self)) as [definitions|];
        [|exact IH].
      intros _ source metric_type. rewrite IH. split.
      * intros i j gi gj Hi. discriminate.
      * intros g Hg. now apply elem_of_nil in Hg.
    + exact IH.
Qed.

End Invariant.

Section AcceptedStep.

Context {fmt : PyFormat}.

(** What an accepted sample does to its bucket and to the queue. *)
Lemma accepted_step (self : InfluxDB) (metric : Metric)
    (definition : MetricDefinition) (tags : Dict) :
  accepted self metric definition tags ->
  let self' := _receive_metric_data metric self in
  let entries := bucket self metric in
  let timestamp := m_timestamp metric * 1000000000 in
  let value := encode_value (m_value metric) in
  let fresh := new_group timestamp tags (m_metric metric) value in
  (exists i pending,
      selects (def_tags definition) tags entries i pending
      /\ g_timestamp pending = timestamp
      /\ bucket self' metric
         = <[i := merge_field pending (m_metric metric) value]> entries
      /\ _send_queue self' = _send_queue self)
  \/ (exists i pending,
        selects (def_tags definition) tags entries i pending
        /\ g_timestamp pending <> timestamp
        /\ bucket self' metric = delete i entries ++ [fresh]
        /\ _send_queue self'
           = render (m_type metric) pending :: _send_queue self)
  \/ ((forall y, y ∈ entries ->
                 agrees (def_tags definition) tags (g_tags y) = false)
      /\ bucket self' metric = entries ++ [fresh]
      /\ _send_queue self' = _send_queue self).
Proof.
  intros Hacc self' entries timestamp value fresh.
  assert (Hself : self' = after_ingest self metric definition tags).
  { unfold self', _receive_metric_data.
    now rewrite (receive_accepted _ _ _ _ Hacc). }
  pose proof (after_ingest_bucket self metric definition tags) as Hb.
  pose proof (after_ingest_queue self metric definition tags) as Hq.
  rewrite <- Hself in Hb, Hq. fold entries timestamp value in Hb, Hq.
  destruct (ingest_bucket_cases (m_type metric) (m_metric metric)
              (def_tags definition) tags timestamp value entries)
    as [(i & pending & Hsel & Ht & E)|[(i & pending & Hsel & Ht & E)|(Hno & E)]];
    rewrite E in Hb, Hq; simpl in Hb, Hq.
  - left. exists i, pending. auto.
  - right; left. exists i, pending. auto.
  - right; right. auto.
Qed.

Lemma agrees_refl (K : list string) (tags : Dict) : agrees K tags tags = true.
Proof. unfold agrees. apply forallb_forall. intros k _. apply py_eq_refl. Qed.

(** After an accepted sample, the scan for its tags stops at a group that
    has the timestamp of the sample and holds its field. *)
Lemma ingested_group_selected (source metric_type name : string)
    (K : list string) (tags : Dict) (timestamp : Z) (value : PyVal)
    (entries : list Group) :
  one_group_per_tagset entries ->
  (forall g, g ∈ entries -> shaped source K (g_tags g)) ->
  shaped source K tags ->
  exists i pending,
    selects K tags
      (fst (ingest_bucket metric_type name K tags timestamp value entries))
      i pending
    /\ g_timestamp pending = timestamp
    /\ dict_eq (g_tags pending) tags = true
    /\ dict_get (g_fields pending) name = Some value.
Proof.
  intros Hone Hshape Stags.
  destruct (ingest_bucket_cases metric_type name K tags timestamp value entries)
    as [(i & pending & Hsel & Ht & ->)|[(i & pending & Hsel & Ht & ->)|(Hno & ->)]];
    simpl.
  - exists i, (merge_field pending name value).
    destruct Hsel as (Hi & Ha & Hfirst).
    split; [|split; [exact Ht|split]].
    + split; [|split].
      * apply list_lookup_insert_eq. eapply lookup_lt_Some; eassumption.
      * exact Ha.
      * intros j y Hj Hlt. rewrite list_lookup_insert_ne in Hj by lia. eauto.
    + simpl. apply dict_eq_sym.
      rewrite <- (shaped_agrees source K); auto.
      eapply Hshape, list_elem_of_lookup_2; eassumption.
    + apply dict_get_set_eq.
  - exists (length (delete i entries)), (new_group timestamp tags name value).
    split; [|split; [reflexivity|split]].
    + split; [|split].
      * apply list_lookup_middle. reflexivity.
      * apply agrees_refl.
      * intros j y Hj Hlt. rewrite lookup_app_l in Hj by assumption.
        destruct (lookup_delete_inv _ _ _ _ Hj) as (c' & Hc' & Hne & _).
        eapply selected_only; eassumption.
    + apply dict_eq_refl.
    + simpl. now rewrite String.eqb_refl.
  - exists (length entries), (new_group timestamp tags name value).
    split; [|split; [reflexivity|split]].
    + split; [|split].
      * apply list_lookup_middle. reflexivity.
      * apply agrees_refl.
      * intros j y Hj Hlt. rewrite lookup_app_l in Hj by assumption.
        apply Hno. eapply list_elem_of_lookup_2; eassumption.
    + apply dict_eq_refl.
    + simpl. now rewrite String.eqb_refl.
Qed.

End AcceptedStep.

(** ** The send queue *)

Lemma pop_snoc (q : list string) (x : string) : pop (q ++ [x]) = Return (x, q).
Proof.
  induction q as [|a q IH]; [reflexivity|].
  change (pop ((a :: q) ++ [x])) with
    (match q ++ [x] with
     | [] => Return (a, [])
     | _ :: _ => match pop (q ++ [x]) with
                 | Return (y, r') => Return (y, a :: r')
                 | Raise e => Raise e
                 end
     end).
  rewrite IH. destruct q; reflexivity.
Qed.

Lemma drain_nil (batch_size : Z) (data : list string) :
  drain batch_size data [] = (data, []).
Proof. now simp drain. Qed.

Lemma drain_snoc (batch_size : Z) (data q : list string) (x : string) :
  drain batch_size data (q ++ [x])
  = if Z.eqb (Z.of_nat (length (data ++ [x]))) batch_size
    then (data ++ [x], q)
    else drain batch_size (data ++ [x]) q.
Proof.
  remember (q ++ [x]) as l eqn:El.
  funelim (drain batch_size data l);
    match goal with
    | P : pop _ = _ |- _ => pose proof P as P'; rewrite pop_snoc in P'
    end.
  - injection P' as <- <-. reflexivity.
  - discriminate.
Qed.

Lemma drain_oldest_first (batch_size : Z) (oldest_first data : list string) :
  drain batch_size data (rev oldest_first)
  = (data ++ take (taken batch_size (length data) (length oldest_first)) oldest_first,
     rev (drop (taken batch_size (length data) (length oldest_first)) oldest_first)).
Proof.
  revert data. induction oldest_first as [|x r IH]; intros data.
  - simpl rev. rewrite drain_nil. unfold taken.
    destruct (Z.ltb _ _); simpl; try rewrite Nat.min_0_r; now rewrite app_nil_r.
  - simpl rev. rewrite drain_snoc, length_app. simpl length.
    destruct (Z.eqb (Z.of_nat (length data + 1)) batch_size) eqn:E.
    + apply Z.eqb_eq in E.
      assert (taken batch_size (length data) (S (length r)) = 1%nat) as ->.
      { unfold taken. destruct (Z.ltb_spec (Z.of_nat (length data)) batch_size); lia. }
      reflexivity.
    + apply Z.eqb_neq in E. rewrite IH, length_app. simpl length.
      assert (taken batch_size (length data) (S (length r))
              = S (taken batch_size (length data + 1) (length r))) as ->.
      { unfold taken.
        destruct (Z.ltb_spec (Z.of_nat (length data)) batch_size),
                 (Z.ltb_spec (Z.of_nat (length data + 1)) batch_size); lia. }
      simpl. now rewrite <- app_assoc.
Qed.

(** One drain hands over the oldest entries, oldest first, and leaves the
    others as they are. *)
Lemma drain_spec (batch_size : Z) (q : list string) :
  exists data q',
    drain batch_size [] q = (data, q')
    /\ q = q' ++ rev data
    /\ length data = taken batch_size 0 (length q).
Proof.
  pose proof (drain_oldest_first batch_size (rev q) []) as H.
  rewrite rev_involutive, length_rev in H. simpl in H.
  eexists _, _. split; [exact H|]. split.
  - rewrite <- rev_app_distr, take_drop. now rewrite rev_involutive.
  - rewrite length_take, length_rev. unfold taken.
    destruct (Z.ltb _ _); lia.
Qed.

Section Encoding.

Context {fmt : PyFormat}.

Lemma format_item_text (item : string * PyVal) :
  format_item item = item_text item.
Proof.
  destruct item as [k v]. unfold format_item, item_text. simpl.
  now rewrite append_empty_r.
Qed.

(** The encodings of a string, of an [int], of a float and of a [long]: the
    string in double quotes, the [int] with the suffix [i], the float and
    the [long] as [str] prints them. *)
Lemma encode_value_scalars (name s : string) (n : Z) (x : Q) :
  format_item (name, encode_value (VStr s))
  = name +:+ "=" +:+ String dquote (s +:+ String dquote "")
  /\ format_item (name, encode_value (VInt n)) = name +:+ "=" +:+ pretty n +:+ "i"
  /\ format_item (name, encode_value (VFloat x)) = name +:+ "=" +:+ float_str x
  /\ format_item (name, encode_value (VLong n)) = name +:+ "=" +:+ pretty n.
Proof. rewrite !format_item_text. repeat split. Qed.

(** C2 (as amended).  A boolean is encoded as the text [True] or [False],
    which is Python's [str] of it, and never with the suffix [i] of the
    integers: the boolean case comes before the integer case and leaves a
    string behind. *)
Theorem C2_boolean_encoded_as_capitalised_text (b : bool) (name : string) :
  encode_value (VBool b) = VStr (if b then "True" else "False")
  /\ format_item (name, encode_value (VBool b))
     = name +:+ "=" +:+ (if b then "True" else "False")
  /\ forall text : string, encode_value (VBool b) <> VStr (text +:+ "i").
Proof.
  split; [now destruct b|]. split.
  - rewrite format_item_text. now destruct b.
  - intros text H.
    assert (E : (if b then "True" else "False") = text +:+ "i")
      by (destruct b; now injection H).
    clear H.
    destruct b;
      destruct text as [|c1 [|c2 [|c3 [|c4 [|c5 [|c6 text]]]]]];
      cbv [String.append] in E; try discriminate E;
      injection E; intros; try discriminate;
      destruct text; discriminate.
Qed.

Lemma join_more_items (first : string) (items : Dict) :
  join "," (first :: map format_item items)
  = first +:+ more_items (stringified items).
Proof.
  revert first. induction items as [|[name v] rest IH]; intros first.
  - simpl. now rewrite append_empty_r.
  - change (join "," (first :: map format_item ((name, v) :: rest)))
      with (first +:+ "," +:+ join "," (format_item (name, v)
                                          :: map format_item rest)).
    rewrite IH, format_item_text. unfold item_text. simpl fst. simpl snd.
    change (more_items (stringified ((name, v) :: rest)))
      with ("," +:+ name +:+ "=" +:+ py_str v
            +:+ more_items (stringified rest)).
    now rewrite !append_assoc.
Qed.

Lemma join_items (items : Dict) :
  join "," (map format_item items) = items_text (stringified items).
Proof.
  destruct items as [|[name v] rest]; [reflexivity|].
  change (map format_item ((name, v) :: rest))
    with (format_item (name, v) :: map format_item rest).
  rewrite join_more_items, format_item_text. unfold item_text.
  simpl fst. simpl snd. now rewrite !append_assoc.
Qed.

(** The text of [_build_entry] for a dict of fields. *)
Lemma build_entry_text (family : string) (tags fields : Dict)
    (timestamp : option Z) :
  _build_entry family tags (EDict fields) timestamp
  = family +:+ "," +:+ items_text (stringified tags) +:+ " "
    +:+ items_text (stringified fields)
    +:+ match timestamp with
        | None => ""
        | Some timestamp => " " +:+ format_0f timestamp
        end.
Proof.
  unfold _build_entry. rewrite !join_items. simpl.
  now rewrite append_empty_r.
Qed.

Lemma more_items_on_one_line (items : list (string * string)) :
  Forall item_on_one_line items -> has_char "010" (more_items items) = false.
Proof.
  induction 1 as [|[name text] rest [Hname Htext] _ IH]; [reflexivity|].
  change (more_items ((name, text) :: rest))
    with ("," +:+ name +:+ "=" +:+ text +:+ more_items rest).
  simpl in Hname, Htext. rewrite !has_char_append, Hname, Htext, IH.
  reflexivity.
Qed.

Lemma items_text_on_one_line (items : list (string * string)) :
  Forall item_on_one_line items -> has_char "010" (items_text items) = false.
Proof.
  destruct 1 as [|[name text] rest [Hname Htext] Hrest]; [reflexivity|].
  change (items_text ((name, text) :: rest))
    with (name +:+ "=" +:+ text +:+ more_items rest).
  simpl in Hname, Htext.
  rewrite !has_char_append, Hname, Htext, (more_items_on_one_line _ Hrest).
  reflexivity.
Qed.

(** C9 (as amended).  For a dict of fields the entry encoder gives the
    line that the specification writes,
    [<family>,<tag>=<v>,... <field>=<enc>,... <timestamp>], with the tags
    and the fields in the iteration order of their mappings, each value
    as [str] gives it; without a timestamp the last segment is left out
    together with its space.  The timestamp goes through a float: what is
    printed are the decimal digits of the double nearest to it.  These are
    the digits of the timestamp itself when a double holds it exactly, that
    is when it has at most 53 significant bits, as every whole number of
    seconds up to 4611686018 (the year 2116) has in nanoseconds; from
    2 ** 53 on, the printed number is a multiple of the unit in the last
    place within half a unit of the timestamp.  The text is one line when
    the family and the texts of the tags and fields hold no line break. *)
Theorem C9_build_entry_line (family : string) (tags fields : Dict) :
  _build_entry family tags (EDict fields) None
  = entry_line family (stringified tags) (stringified fields) None
  /\ (forall timestamp_ns : Z,
         fits_double timestamp_ns ->
         _build_entry family tags (EDict fields) (Some timestamp_ns)
         = entry_line family (stringified tags) (stringified fields)
             (Some (float_of_int timestamp_ns)))
  /\ (forall m e : Z,
         Z.abs m <= 2 ^ 53 -> 0 <= e -> fits_double (m * 2 ^ e) ->
         _build_entry family tags (EDict fields) (Some (m * 2 ^ e))
         = entry_line family (stringified tags) (stringified fields)
             (Some (m * 2 ^ e)))
  /\ (forall seconds : Z,
         Z.abs seconds <= 4611686018 ->
         _build_entry family tags (EDict fields) (Some (seconds * 1000000000))
         = entry_line family (stringified tags) (stringified fields)
             (Some (seconds * 1000000000)))
  /\ (forall timestamp_ns : Z,
         2 ^ 53 <= Z.abs timestamp_ns ->
         (2 ^ (Z.log2 (Z.abs timestamp_ns) - 52) | float_of_int timestamp_ns)
         /\ 2 * Z.abs (float_of_int timestamp_ns - timestamp_ns)
            <= 2 ^ (Z.log2 (Z.abs timestamp_ns) - 52))
  /\ (has_char "010" family = false ->
      Forall item_on_one_line (stringified tags) ->
      Forall item_on_one_line (stringified fields) ->
      forall timestamp : option Z,
        (forall timestamp_ns, timestamp = Some timestamp_ns ->
                              fits_double timestamp_ns) ->
        has_char "010" (_build_entry family tags (EDict fields) timestamp)
        = false).
Proof.
  assert (Hline : forall timestamp_ns,
             _build_entry family tags (EDict fields) (Some timestamp_ns)
             = entry_line family (stringified tags) (stringified fields)
                 (Some (float_of_int timestamp_ns)))
    by (intros timestamp_ns; apply build_entry_text).
  split; [apply build_entry_text|]. split; [intros t _; apply Hline|].
  split; [|split; [|split]].
  - intros m e Hm He _. now rewrite Hline, float_of_int_exact.
  - intros seconds Hs. now rewrite Hline, float_of_int_seconds.
  - intros timestamp_ns. apply float_of_int_near.
  - intros Hfamily Htags Hfields timestamp _. rewrite build_entry_text.
    rewrite !has_char_append, Hfamily, (items_text_on_one_line _ Htags),
      (items_text_on_one_line _ Hfields).
    destruct timestamp as [timestamp|]; [|reflexivity].
    rewrite has_char_append. unfold format_0f.
    now rewrite pretty_Z_on_one_line.
Qed.

End Encoding.


Section Grouping.

Context {fmt : PyFormat}.

(** What the scan does select.  For an accepted sample, step 4 scans the
    open groups of the sample's bucket in insertion order and selects the
    first group
    whose tags agree with the sample's tags on every tag key of the
    sample's definition: that group is merged into when its timestamp is
    the sample's, and is closed otherwise; when no group agrees a new one
    is appended.  A group that disagrees with the sample on one of these
    tag keys is never merged into and never closed by the sample: it is
    still in the bucket afterwards, and a line that is pushed is the line
    of the selected group. *)
Lemma scan_selects_first_agreeing_group (self : InfluxDB)
    (metric : Metric) (definition : MetricDefinition) (tags : Dict) :
  accepted self metric definition tags ->
  let self' := _receive_metric_data metric self in
  let entries := bucket self metric in
  let timestamp := m_timestamp metric * 1000000000 in
  let value := encode_value (m_value metric) in
  let fresh := new_group timestamp tags (m_metric metric) value in
  ((exists i pending,
       selects (def_tags definition) tags entries i pending
       /\ g_timestamp pending = timestamp
       /\ bucket self' metric
          = <[i := merge_field pending (m_metric metric) value]> entries
       /\ _send_queue self' = _send_queue self)
   \/ (exists i pending,
         selects (def_tags definition) tags entries i pending
         /\ g_timestamp pending <> timestamp
         /\ bucket self' metric = delete i entries ++ [fresh]
         /\ _send_queue self'
            = render (m_type metric) pending :: _send_queue self)
   \/ ((forall y, y ∈ entries ->
                  agrees (def_tags definition) tags (g_tags y) = false)
       /\ bucket self' metric = entries ++ [fresh]
       /\ _send_queue self' = _send_queue self))
  /\ (forall j y,
         entries !! j = Some y ->
         agrees (def_tags definition) tags (g_tags y) = false ->
         y ∈ bucket self' metric
         /\ forall line, _send_queue self' = line :: _send_queue self ->
              exists i pending,
                selects (def_tags definition) tags entries i pending
                /\ i <> j /\ line = render (m_type metric) pending).
Proof.
  intros Hacc self' entries timestamp value fresh.
  pose proof (accepted_step self metric definition tags Hacc) as Hstep.
  cbv zeta in Hstep. fold self' entries timestamp value fresh in Hstep.
  split; [exact Hstep|].
  assert (Hnil : forall q (line : string), q = line :: q -> False).
  { intros q line H. apply (f_equal length) in H. simpl in H. lia. }
  intros j y Hj Ha.
  destruct Hstep
    as [(i & pending & Hsel & Ht & Hb & Hq)
       |[(i & pending & Hsel & Ht & Hb & Hq)|(Hno & Hb & Hq)]].
  - split.
    + rewrite Hb. destruct Hsel as (Hi & Hag & _).
      assert (j <> i) by (intros ->; congruence).
      eapply list_elem_of_lookup_2. rewrite list_lookup_insert_ne; eauto.
    + intros line Hline. rewrite Hq in Hline. destruct (Hnil _ _ Hline).
  - assert (j <> i) as Hji
        by (destruct Hsel as (Hi & Hag & _); intros ->; congruence).
    split.
    + rewrite Hb. apply elem_of_app. left.
      destruct (decide (j < i)%nat).
      * eapply list_elem_of_lookup_2. rewrite list_lookup_delete_lt; eauto.
      * apply (list_elem_of_lookup_2 _ (j - 1)).
        rewrite list_lookup_delete_ge by lia.
        replace (S (j - 1)) with j by lia. assumption.
    + intros line Hline. rewrite Hq in Hline. injection Hline as <-.
      exists i, pending. auto.
  - split.
    + rewrite Hb. apply elem_of_app. left.
      eapply list_elem_of_lookup_2; eassumption.
    + intros line Hline. rewrite Hq in Hline. destruct (Hnil _ _ Hline).
Qed.

Lemma receive_queue (self : InfluxDB) (metric : Metric) :
  exists closed : list string,
    _send_queue (_receive_metric_data metric self) = closed ++ _send_queue self
    /\ (length closed <= 1)%nat.
Proof.
  destruct (receive_cases self metric)
    as [(d & t & Hacc & E)|[(_ & _ & ->)|(ex & _ & _ & ->)]].
  - destruct (accepted_step self metric d t Hacc)
      as [(i & p & _ & _ & _ & ->)|[(i & p & _ & _ & _ & ->)|(_ & _ & ->)]].
    + exists []. auto.
    + exists [render (m_type metric) p]. auto.
    + exists []. auto.
  - exists []. auto.
  - exists []. auto.
Qed.

(** During the ingestion of any sample at most one open group is closed,
    and an accepted sample either merges its field into the group the scan
    stops at or starts a new group, never both.  When
    all definitions that feed a bucket declare the same tag keys, two
    samples of the same source, metric type and tags at timestamps T1 then
    T2, with T2 other than T1, behave as follows: after the first, one
    open group carries these tags with the timestamp T1 and the field of
    the first sample; the second closes exactly that group, its line being
    pushed to the queue, and starts a new group at T2. *)
Lemma one_close_and_merge_or_start :
  (forall (self : InfluxDB) (metric : Metric),
      let self' := _receive_metric_data metric self in
      (exists closed : list string,
          _send_queue self' = closed ++ _send_queue self
          /\ (length closed <= 1)%nat)
      /\ forall definition tags,
           accepted self metric definition tags ->
           (merged_into self self' metric definition tags
            /\ ~ (exists closed,
                     started_new self self' metric definition tags closed))
           \/ ((exists closed,
                   started_new self self' metric definition tags closed
                   /\ (length closed <= 1)%nat)
               /\ ~ merged_into self self' metric definition tags))
  /\ (forall (self : InfluxDB) (m1 m2 : Metric)
             (definition1 definition2 : MetricDefinition) (tags : Dict),
         reachable self -> homogeneous_definitions self ->
         accepted self m1 definition1 tags ->
         accepted self m2 definition2 tags ->
         m_source m1 = m_source m2 -> m_type m1 = m_type m2 ->
         m_timestamp m2 <> m_timestamp m1 ->
         let self1 := _receive_metric_data m1 self in
         let self2 := _receive_metric_data m2 self1 in
         exists i pending,
           bucket self1 m1 !! i = Some pending
           /\ g_timestamp pending = m_timestamp m1 * 1000000000
           /\ dict_eq (g_tags pending) tags = true
           /\ dict_get (g_fields pending) (m_metric m1)
              = Some (encode_value (m_value m1))
           /\ _send_queue self2
              = render (m_type m1) pending :: _send_queue self1
           /\ bucket self2 m2
              = delete i (bucket self1 m1)
                ++ [new_group (m_timestamp m2 * 1000000000) tags
                      (m_metric m2) (encode_value (m_value m2))]).
Proof.
  split.
  - intros self metric self'. split; [apply receive_queue|].
    intros definition tags Hacc.
    destruct (accepted_step self metric definition tags Hacc)
      as [(i & p & Hsel & Ht & Hb & Hq)
         |[(i & p & Hsel & Ht & Hb & Hq)|(Hno & Hb & Hq)]].
    + left. split; [exists i, p; auto|].
      intros (closed & _ & [(_ & Hno & _)|(i' & p' & Hsel' & Ht' & _)]).
      * destruct Hsel as (Hi & Ha & _). rewrite Hno in Ha; [discriminate|].
        eapply list_elem_of_lookup_2; eassumption.
      * destruct (selects_unique _ _ _ _ _ _ _ Hsel Hsel') as [<- <-].
        contradiction.
    + right. split.
      * exists [p]. split; [|simpl; lia]. split; [exact Hq|].
        right. exists i, p. auto.
      * intros (i' & p' & Hsel' & Ht' & _).
        destruct (selects_unique _ _ _ _ _ _ _ Hsel Hsel') as [<- <-].
        contradiction.
    + right. split.
      * exists []. split; [|simpl; lia]. split; [exact Hq|]. left. auto.
      * intros (i' & p' & (Hi & Ha & _) & _).
        rewrite Hno in Ha; [discriminate|].
        eapply list_elem_of_lookup_2; eassumption.
  - intros self m1 m2 d1 d2 tags Hreach Hhom Hacc1 Hacc2 Hsrc Htype Hts
           self1 self2.
    pose proof Hacc1 as (_ & (definitions & Hdefs & Hlook1) & Htags1).
    pose proof Hacc2 as (_ & (definitions' & Hdefs' & Hlook2) & Htags2).
    assert (definitions' = definitions) by congruence. subst definitions'.
    specialize (Hhom _ Hdefs).
    assert (HK : def_tags d2 = def_tags d1).
    { rewrite <- Htype in Hlook2.
      eapply Hhom; [| exact Hlook2 | exact Hlook1]. now rewrite Hsrc. }
    pose proof (reachable_inv self Hreach) as Hinv.
    unfold plugin_inv in Hinv. rewrite Hdefs in Hinv.
    specialize (Hinv Hhom (lower (m_source m1)) (m_type m1)).
    pose proof (bucket_inv_shaped _ _ _ _ Hhom Hlook1 Hinv) as Hshaped.
    pose proof (build_tags_shaped _ _ _ _ Htags1) as Stags.
    destruct Hinv as [Hone _].
    destruct (ingested_group_selected (lower (m_source m1)) (m_type m1)
                (m_metric m1) (def_tags d1) tags (m_timestamp m1 * 1000000000)
                (encode_value (m_value m1)) _ Hone Hshaped Stags)
      as (i & pending & Hsel & Ht & Heq & Hfield).
    assert (Hself1 : self1 = after_ingest self m1 d1 tags).
    { unfold self1, _receive_metric_data.
      now rewrite (receive_accepted _ _ _ _ Hacc1). }
    fold (bucket self m1) in Hsel.
    rewrite <- after_ingest_bucket, <- Hself1 in Hsel.
    assert (Hb12 : bucket self1 m2 = bucket self1 m1)
      by (unfold bucket; now rewrite Hsrc, Htype).
    assert (Hacc2' : accepted self1 m2 d2 tags).
    { destruct (receive_config self m1) as [He Hd].
      eapply accepted_config; [exact He | exact Hd | exact Hacc2]. }
    exists i, pending.
    split; [apply Hsel|]. split; [exact Ht|]. split; [exact Heq|].
    split; [exact Hfield|].
    destruct (accepted_step self1 m2 d2 tags Hacc2')
      as [(i' & p' & Hsel' & Ht' & _)
         |[(i' & p' & Hsel' & Ht' & Hb & Hq)|(Hno & _)]];
      rewrite ?HK, ?Hb12 in *.
    + destruct (selects_unique _ _ _ _ _ _ _ Hsel Hsel') as [<- <-]. lia.
    + destruct (selects_unique _ _ _ _ _ _ _ Hsel Hsel') as [<- <-].
      fold self2 in Hb, Hq. rewrite Htype. auto.
    + destruct Hsel as (Hi & Ha & _). rewrite Hno in Ha; [discriminate|].
      eapply list_elem_of_lookup_2; eassumption.
Qed.

End Grouping.

Section Ingestion.

Context {fmt : PyFormat}.

(** C7.  [_receive_metric_data] returns for every sample: either the body
    of the [try] returns, or it raises, and then the handler logs the
    error and the sample is dropped, the pending groups and the queue
    being as before.  When the plugin is disabled, the definitions are not
    loaded yet or hold none for the sample, the call changes nothing: no
    group is touched and no entry is queued. *)
Theorem C7_ingestion_never_raises (self : InfluxDB) (metric : Metric) :
  ((exists self',
       receive_try metric self = (Return tt, self')
       /\ _receive_metric_data metric self = self')
   \/ (exists ex,
         receive_try metric self = (Raise ex, self)
         /\ _receive_metric_data metric self
            = logger (py_format "Error receiving metrics: {0}"
                        [VStr (exc_str ex)]) self
         /\ _pending_metrics (_receive_metric_data metric self)
            = _pending_metrics self
         /\ _send_queue (_receive_metric_data metric self)
            = _send_queue self))
  /\ (_enabled self = false
      \/ _definitions self = None
      \/ (exists definitions,
            _definitions self = Some definitions
            /\ lookup_definition definitions (m_source metric) (m_type metric)
                 (m_metric metric) = None) ->
      _receive_metric_data metric self = self).
Proof.
  split.
  - destruct (receive_cases self metric)
      as [(d & t & Hacc & E)|[(_ & Htry & E)|(ex & _ & Htry & E)]].
    + left. exists (after_ingest self metric d t).
      split; [now apply receive_accepted | exact E].
    + left. exists self. auto.
    + right. exists ex. rewrite E. auto.
  - intros H. unfold _receive_metric_data, receive_try.
    destruct H as [->|[->|(definitions & -> & ->)]].
    + reflexivity.
    + now destruct (_enabled self).
    + now destruct (_enabled self).
Qed.

Lemma dict_get_merge_other (fields : Dict) (name k : string) (value : PyVal) :
  k <> name -> dict_get (dict_set fields name value) k = dict_get fields k.
Proof. intros N. apply dict_get_set_ne. congruence. Qed.

(** When the scan stops at an open group with the timestamp of the
    sample and the name of the metric is already among the fields of that
    group, the new encoded value replaces the old one: the field names of
    the group are the same as before, the other fields keep their values,
    and nothing is queued. *)
Lemma last_write_wins_selected (self : InfluxDB) (metric : Metric)
    (definition : MetricDefinition) (tags : Dict) (i : nat) (pending : Group)
    (old : PyVal) :
  accepted self metric definition tags ->
  selects (def_tags definition) tags (bucket self metric) i pending ->
  g_timestamp pending = m_timestamp metric * 1000000000 ->
  dict_get (g_fields pending) (m_metric metric) = Some old ->
  let self' := _receive_metric_data metric self in
  let merged := merge_field pending (m_metric metric)
                  (encode_value (m_value metric)) in
  bucket self' metric = <[i := merged]> (bucket self metric)
  /\ dict_keys (g_fields merged) = dict_keys (g_fields pending)
  /\ dict_get (g_fields merged) (m_metric metric)
     = Some (encode_value (m_value metric))
  /\ (forall k, k <> m_metric metric ->
                dict_get (g_fields merged) k = dict_get (g_fields pending) k)
  /\ _send_queue self' = _send_queue self.
Proof.
  intros Hacc Hsel Ht Hold self' merged.
  destruct (accepted_step self metric definition tags Hacc)
    as [(i' & p' & Hsel' & _ & Hb & Hq)|[(i' & p' & Hsel' & Hne & _)|(Hno & _)]].
  - destruct (selects_unique _ _ _ _ _ _ _ Hsel Hsel') as [<- <-].
    split; [exact Hb|]. split; [|split; [|split; [|exact Hq]]].
    + simpl. apply dict_keys_set_present. eapply dict_get_Some_key; eassumption.
    + simpl. apply dict_get_set_eq.
    + intros k Hk. simpl. now apply dict_get_merge_other.
  - destruct (selects_unique _ _ _ _ _ _ _ Hsel Hsel') as [<- <-]. contradiction.
  - destruct Hsel as (Hi & Ha & _).
    rewrite Hno in Ha; [discriminate|].
    eapply list_elem_of_lookup_2; eassumption.
Qed.

End Ingestion.

Section OpenGroups.

Context {fmt : PyFormat}.

(** When all definitions that feed a bucket declare the same tag keys,
    every state the plugin reaches has in each bucket at most one open
    group per dictionary of tags (compared as Python compares them).  In such a state, the ingestion
    of a sample leaves each open group either open, with its timestamp and
    tags and with at least the field names it had, or closed: then it is
    no longer in the table and its line is at the front of the queue.  The
    lines queued before stay as they are. *)
Lemma one_open_group_per_tags (self : InfluxDB) :
  reachable self -> homogeneous_definitions self ->
  (forall source metric_type,
      one_group_per_tagset
        (entries_of (_pending_metrics self) source metric_type))
  /\ forall metric : Metric,
       let self' := _receive_metric_data metric self in
       (exists closed : list string,
           _send_queue self' = closed ++ _send_queue self)
       /\ forall source metric_type g,
            g ∈ entries_of (_pending_metrics self) source metric_type ->
            (exists g',
                g' ∈ entries_of (_pending_metrics self') source metric_type
                /\ g_timestamp g' = g_timestamp g
                /\ g_tags g' = g_tags g
                /\ forall k, k ∈ dict_keys (g_fields g) ->
                             k ∈ dict_keys (g_fields g'))
            \/ ((g ∉ entries_of (_pending_metrics self') source metric_type)
                /\ _send_queue self'
                   = render metric_type g :: _send_queue self).
Proof.
  intros Hreach Hhom.
  assert (Hone : forall source metric_type,
             one_group_per_tagset
               (entries_of (_pending_metrics self) source metric_type)).
  { intros source metric_type.
    pose proof (reachable_inv self Hreach) as Hinv. unfold plugin_inv in Hinv.
    destruct (_definitions self) as [definitions|] eqn:Hdefs.
    - apply Hinv. now apply Hhom.
    - rewrite Hinv. intros i j gi gj Hi. discriminate. }
  split; [exact Hone|].
  intros metric self'. split.
  { destruct (receive_queue self metric) as (closed & Hq & _). eauto. }
  intros source metric_type g Hg.
  assert (Hstay : entries_of (_pending_metrics self') source metric_type
                  = entries_of (_pending_metrics self) source metric_type ->
                  exists g',
                    g' ∈ entries_of (_pending_metrics self') source metric_type
                    /\ g_timestamp g' = g_timestamp g
                    /\ g_tags g' = g_tags g
                    /\ forall k, k ∈ dict_keys (g_fields g) ->
                                 k ∈ dict_keys (g_fields g')).
  { intros E. exists g. rewrite E. auto. }
  destruct (receive_cases self metric)
    as [(d & t & Hacc & E)|[(_ & _ & E)|(ex & _ & _ & E)]].
  2,3: left; apply Hstay; unfold self'; now rewrite E.
  destruct (decide ((lower (m_source metric), m_type metric)
                    = (source, metric_type))) as [Eb|Nb].
  2:{ left. apply Hstay. unfold self'. rewrite E.
      now apply after_ingest_other. }
  injection Eb as <- <-.
  fold (bucket self metric) in Hg |- *. fold (bucket self' metric) in Hstay |- *.
  specialize (Hone (lower (m_source metric)) (m_type metric)).
  fold (bucket self metric) in Hone.
  apply list_elem_of_lookup in Hg as [c Hc].
  destruct (accepted_step self metric d t Hacc)
    as [(i & p & Hsel & Ht & Hb & Hq)
       |[(i & p & Hsel & Ht & Hb & Hq)|(Hno & Hb & Hq)]];
    fold self' in Hb, Hq.
  - left. destruct Hsel as (Hi & _).
    destruct (decide (c = i)) as [->|Hci].
    + assert (g = p) by congruence. subst g.
      exists (merge_field p (m_metric metric) (encode_value (m_value metric))).
      split; [|split; [reflexivity|split; [reflexivity|]]].
      * rewrite Hb. eapply list_elem_of_lookup_2.
        apply list_lookup_insert_eq. eapply lookup_lt_Some; eassumption.
      * intros k Hk. simpl. now apply dict_keys_set_incl.
    + exists g. split; [|auto]. rewrite Hb.
      eapply list_elem_of_lookup_2. rewrite list_lookup_insert_ne; eauto.
  - destruct Hsel as (Hi & _).
    destruct (decide (c = i)) as [->|Hci].
    + assert (g = p) by congruence. subst g.
      right. split; [|exact Hq].
      rewrite Hb. intros Hin. apply elem_of_app in Hin as [Hin|Hin].
      * apply list_elem_of_lookup in Hin as [c Hc'].
        destruct (lookup_delete_inv _ _ _ _ Hc') as (c' & Hc'' & Hne & _).
        pose proof (Hone c' i p p Hc'' Hi Hne) as Hd.
        rewrite dict_eq_refl in Hd. discriminate.
      * apply list_elem_of_singleton in Hin. subst p. now simpl in Ht.
    + left. exists g. split; [|auto]. rewrite Hb. apply elem_of_app. left.
      destruct (decide (c < i)%nat).
      * eapply list_elem_of_lookup_2. rewrite list_lookup_delete_lt; eauto.
      * apply (list_elem_of_lookup_2 _ (c - 1)).
        rewrite list_lookup_delete_ge by lia.
        replace (S (c - 1)) with c by lia. assumption.
  - left. exists g. split; [|auto]. rewrite Hb. apply elem_of_app. left.
    eapply list_elem_of_lookup_2; eassumption.
Qed.

End OpenGroups.

(** ** First in, first out *)

Lemma queue_step_invariant (batch_size : Z) (t : Trace) (op : QueueOp) :
  tr_delivered t ++ rev (tr_queue t) = tr_pushed t ->
  tr_delivered (queue_step batch_size t op)
    ++ rev (tr_queue (queue_step batch_size t op))
  = tr_pushed (queue_step batch_size t op).
Proof.
  intros H. destruct op as [entry|]; simpl.
  - unfold appendleft. simpl. now rewrite app_assoc, H.
  - destruct (drain_spec batch_size (tr_queue t)) as (data & q' & -> & Hq & _).
    simpl. rewrite <- H, Hq, rev_app_distr, rev_involutive.
    now rewrite app_assoc.
Qed.

Lemma run_queue_invariant (batch_size : Z) (ops : list QueueOp) (t : Trace) :
  tr_delivered t ++ rev (tr_queue t) = tr_pushed t ->
  let t' := foldl (queue_step batch_size) t ops in
  tr_delivered t' ++ rev (tr_queue t') = tr_pushed t'.
Proof.
  revert t. induction ops as [|op ops IH]; intros t H; simpl; [exact H|].
  apply IH. now apply queue_step_invariant.
Qed.

Lemma taken_progress (batch_size : Z) (len : nat) :
  (0 < len)%nat -> (0 < taken batch_size 0 len)%nat.
Proof.
  intros H. unfold taken. change (Z.of_nat 0) with 0.
  destruct (Z.ltb_spec 0 batch_size); lia.
Qed.

Lemma drains_empty_the_queue (batch_size : Z) (n : nat) (t : Trace) :
  (length (tr_queue t) <= n)%nat ->
  tr_queue (foldl (queue_step batch_size) t (repeat Drain n)) = []
  /\ tr_pushed (foldl (queue_step batch_size) t (repeat Drain n)) = tr_pushed t.
Proof.
  revert t. induction n as [|n IH]; intros t H; simpl.
  - split; [|reflexivity]. destruct (tr_queue t); [reflexivity | simpl in H; lia].
  - destruct (drain_spec batch_size (tr_queue t)) as (data & q' & E & Hq & Hlen).
    specialize (IH (queue_step batch_size t Drain)).
    simpl in IH. rewrite E in IH. simpl in IH. rewrite E. apply IH.
    apply (f_equal length) in Hq. rewrite length_app, length_rev in Hq.
    destruct (tr_queue t) as [|a q] eqn:Eq.
    + simpl in Hq. lia.
    + pose proof (taken_progress batch_size (length (a :: q))) as P.
      simpl in *. lia.
Qed.

(** C5.  Pushing at the left end and popping at the right end delivers first
    in, first out.  Whatever the order of pushes and sender drains, from the
    empty queue, the entries handed to the sender followed by the entries
    still queued (oldest first) are the entries pushed, in the order of the
    pushes; and entries pushed in the order A, B, C, ... are all handed over
    in that order once the sender has drained often enough. *)
Theorem C5_queue_first_in_first_out (batch_size : Z) :
  (forall ops : list QueueOp,
      tr_delivered (run_queue batch_size ops)
        ++ rev (tr_queue (run_queue batch_size ops))
      = tr_pushed (run_queue batch_size ops))
  /\ (forall (entries : list string) (n : nat),
         (length entries <= n)%nat ->
         tr_delivered (run_queue batch_size (map Push entries ++ repeat Drain n))
         = entries).
Proof.
  assert (Hall : forall ops : list QueueOp,
             tr_delivered (run_queue batch_size ops)
               ++ rev (tr_queue (run_queue batch_size ops))
             = tr_pushed (run_queue batch_size ops)).
  { intros ops. now apply run_queue_invariant. }
  split; [exact Hall|].
  - intros entries n Hn.
    pose proof (Hall (map Push entries ++ repeat Drain n)) as Hinv.
    unfold run_queue in *. rewrite foldl_app in *.
    set (t := foldl (queue_step batch_size) _ (map Push entries)) in *.
    assert (Ht : tr_pushed t = entries /\ length (tr_queue t) = length entries).
    { unfold t. clear. 
      assert (G : forall t0, 
                 tr_pushed (foldl (queue_step batch_size) t0 (map Push entries))
                 = tr_pushed t0 ++ entries
                 /\ length (tr_queue (foldl (queue_step batch_size) t0 (map Push entries)))
                    = (length (tr_queue t0) + length entries)%nat).
      { induction entries as [|e entries IH]; intros t0; simpl.
        - rewrite app_nil_r. split; [reflexivity | lia].
        - destruct (IH (queue_step batch_size t0 (Push e))) as [E1 E2].
          simpl in E1, E2. rewrite E1, E2.
          rewrite <- app_assoc. split; [reflexivity | lia]. }
      apply (G {| tr_queue := []; tr_pushed := []; tr_delivered := [] |}). }
    destruct Ht as [Hp Hl].
    destruct (drains_empty_the_queue batch_size n t) as [Hq Hp']; [lia|].
    rewrite Hq, Hp', Hp in Hinv. simpl in Hinv. now rewrite app_nil_r in Hinv.
Qed.

Section Sender.

Context {fmt : PyFormat}.

(** C6 (as amended).  With a batch size of at least 1, one turn of the
    sender drains exactly min(batch_size, length of the queue) entries, the
    oldest ones, oldest first; when at least one is drained they are sent,
    joined by newlines, in a single request; the others stay queued as they
    were.  In particular, with batch size N and at least N+1 entries
    queued, N entries are posted in one request and at least one stays. *)
Theorem C6_sender_drains_one_batch (turn : Turn) (self : InfluxDB) :
  1 <= _batch_size self ->
  let self' := sender_cycle turn self in
  exists data : list string,
    Z.of_nat (length data)
    = Z.min (_batch_size self) (Z.of_nat (length (_send_queue self)))
    /\ _send_queue self = _send_queue self' ++ rev data
    /\ posted self'
       = match data with
         | [] => posted self
         | _ :: _ =>
             {| req_url := _endpoint self;
                req_data := join (String "010" EmptyString) data |}
               :: posted self
         end
    /\ (_batch_size self < Z.of_nat (length (_send_queue self)) ->
        Z.of_nat (length data) = _batch_size self
        /\ (1 <= length (_send_queue self'))%nat).
Proof.
  intros Hb self'.
  destruct (drain_spec (_batch_size self) (_send_queue self))
    as (data & q' & E & Hq & Hlen).
  assert (Hself : _send_queue self' = q'
                  /\ posted self'
                     = if (0 <? length data)%nat
                       then {| req_url := _endpoint self;
                               req_data := join (String "010" EmptyString) data |}
                              :: posted self
                       else posted self).
  { destruct (sender_cycle_parts turn self) as (Hq' & Hp & _).
    rewrite E in Hq', Hp. auto. }
  destruct Hself as [Hq' Hp].
  assert (Hn : Z.of_nat (length data)
               = Z.min (_batch_size self) (Z.of_nat (length (_send_queue self)))).
  { rewrite Hlen. unfold taken. change (Z.of_nat 0) with 0.
    destruct (Z.ltb_spec 0 (_batch_size self)); lia. }
  exists data. split; [exact Hn|]. split; [now rewrite Hq'|]. split.
  - rewrite Hp. now destruct data.
  - intros Hlt. split; [lia|]. rewrite Hq'.
    apply (f_equal length) in Hq. rewrite length_app, length_rev in Hq. lia.
Qed.

End Sender.

(** * Further properties of the code *)

(** ** The sender *)

Section SenderTurns.

Context {fmt : PyFormat}.

(** X1.  A turn of the sender on an empty queue does nothing at all: no
    request is made and no attribute of the plugin changes. *)
Theorem sender_cycle_empty_queue (turn : Turn) (self : InfluxDB) :
  _send_queue self = [] -> sender_cycle turn self = self.
Proof.
  intros H. unfold sender_cycle, sender_try, bind, get, update, ret.
  rewrite H, drain_nil. simpl.
  rewrite <- H. apply set_send_queue_same.
Qed.

(** X2.  With a batch size of 0 or less the test [len(data) == batch_size]
    never holds: one turn empties the whole queue and posts all its
    entries, oldest first, in one request. *)
Theorem sender_cycle_unbounded_batch (turn : Turn) (self : InfluxDB) :
  _batch_size self <= 0 -> _send_queue self <> [] ->
  _send_queue (sender_cycle turn self) = []
  /\ posted (sender_cycle turn self)
     = {| req_url := _endpoint self;
          req_data := join (String "010" EmptyString) (rev (_send_queue self)) |}
         :: posted self.
Proof.
  intros Hb Hq.
  destruct (sender_cycle_parts turn self) as (Hq' & Hp & _).
  destruct (drain_spec (_batch_size self) (_send_queue self))
    as (data & q' & E & Hsplit & Hlen).
  rewrite E in Hq', Hp. simpl in Hq', Hp.
  assert (Hall : length data = length (_send_queue self)).
  { rewrite Hlen. unfold taken. change (Z.of_nat 0) with 0.
    destruct (Z.ltb_spec 0 (_batch_size self)); [lia | reflexivity]. }
  assert (q' = []) as ->.
  { apply (f_equal length) in Hsplit.
    rewrite length_app, length_rev in Hsplit.
    destruct q'; [reflexivity | simpl in Hsplit; lia]. }
  simpl in Hsplit. rewrite Hsplit, rev_involutive.
  split; [exact Hq'|]. rewrite Hp.
  destruct data as [|x data]; [|reflexivity].
  simpl in Hsplit. contradiction.
Qed.


(** X4.  With a batch size of at least 1, [n] turns of the sender take the
    [n * batch_size] oldest entries (or all, if there are fewer): the
    newest entries stay, as they were. *)
Theorem sender_turns_drain_oldest (turns : list Turn) (self : InfluxDB) :
  1 <= _batch_size self ->
  _send_queue (_sender turns self)
  = take (length (_send_queue self)
          - length turns * Z.to_nat (_batch_size self))
      (_send_queue self).
Proof.
  revert self. induction turns as [|turn turns IH]; intros self Hb.
  - simpl. rewrite Nat.sub_0_r. now rewrite firstn_all.
  - unfold _sender in *. simpl foldl.
    destruct (sender_cycle_parts turn self) as (Hq & _ & Hbs & _).
    destruct (drain_spec (_batch_size self) (_send_queue self))
      as (data & q' & E & Hsplit & Hlen).
    rewrite E in Hq. simpl in Hq.
    rewrite IH by (rewrite Hbs; exact Hb). rewrite Hbs, Hq.
    assert (Hdata : length data
                    = Nat.min (Z.to_nat (_batch_size self))
                        (length (_send_queue self))).
    { rewrite Hlen. unfold taken. change (Z.of_nat 0) with 0.
      destruct (Z.ltb_spec 0 (_batch_size self)); [|lia].
      now rewrite Z.sub_0_r. }
    assert (Hq' : q' = take (length (_send_queue self) - length data)
                         (_send_queue self)).
    { rewrite Hsplit at 2. rewrite take_app_length'; [reflexivity|].
      rewrite Hsplit at 1. rewrite length_app, length_rev. lia. }
    rewrite Hq' at 2. rewrite take_take. f_equal.
    assert (length q' = length (_send_queue self) - length data)%nat.
    { apply (f_equal length) in Hsplit.
      rewrite length_app, length_rev in Hsplit. lia. }
    simpl length. lia.
Qed.

End SenderTurns.

(** ** The definition loader *)

Lemma load_attempt_keeps (answer : Answer) (self : InfluxDB) :
  _pending_metrics (load_attempt answer self) = _pending_metrics self
  /\ _send_queue (load_attempt answer self) = _send_queue self
  /\ posted (load_attempt answer self) = posted self
  /\ _enabled (load_attempt answer self) = _enabled self
  /\ _batch_size (load_attempt answer self) = _batch_size self
  /\ _endpoint (load_attempt answer self) = _endpoint self.
Proof. destruct answer as [[|] definitions|ex]; simpl; auto 10. Qed.

Lemma load_definitions_keeps (answers : list Answer) (self : InfluxDB) :
  _pending_metrics (_load_definitions answers self) = _pending_metrics self
  /\ _send_queue (_load_definitions answers self) = _send_queue self
  /\ posted (_load_definitions answers self) = posted self
  /\ _enabled (_load_definitions answers self) = _enabled self
  /\ _batch_size (_load_definitions answers self) = _batch_size self
  /\ _endpoint (_load_definitions answers self) = _endpoint self.
Proof.
  revert self. induction answers as [|answer rest IH]; intros self; simpl.
  - auto 10.
  - destruct (_definitions self); [auto 10|].
    destruct (IH (load_attempt answer self)) as (-> & -> & -> & -> & -> & ->).
    apply load_attempt_keeps.
Qed.

(** X5.  The loader installs the definitions of the first successful answer
    that carries some and then stops: later answers are not asked for, so
    definitions once loaded are never replaced.  Unsuccessful answers and
    exceptions are retried.  The loader touches neither the pending groups
    nor the queue. *)
Theorem load_definitions_first_success (answers more : list Answer)
    (self : InfluxDB) :
  _definitions self = None ->
  _definitions (_load_definitions answers self) = first_loaded answers
  /\ (is_Some (first_loaded answers) ->
      _load_definitions (answers ++ more) self = _load_definitions answers self)
  /\ _load_definitions more (_load_definitions answers self)
     = _load_definitions (answers ++ more) self
  /\ _pending_metrics (_load_definitions answers self) = _pending_metrics self
  /\ _send_queue (_load_definitions answers self) = _send_queue self.
Proof.
  intros Hnone.
  split; [|split; [|split; [|split; apply load_definitions_keeps]]].
  - revert self Hnone.
    induction answers as [|answer rest IH]; intros self Hnone; simpl.
    + exact Hnone.
    + rewrite Hnone.
      destruct answer as [[|] [definitions|]|ex]; simpl.
      * destruct rest; simpl; reflexivity.
      * apply IH. reflexivity.
      * apply IH. exact Hnone.
      * apply IH. exact Hnone.
      * apply IH. exact Hnone.
  - revert self Hnone.
    induction answers as [|answer rest IH]; intros self Hnone Hsome; simpl.
    + destruct Hsome as [d Hd]. discriminate.
    + rewrite Hnone.
      destruct answer as [[|] [definitions|]|ex]; simpl in *.
      * destruct rest, more; simpl; reflexivity.
      * apply IH; [reflexivity | exact Hsome].
      * apply IH; assumption.
      * apply IH; assumption.
      * apply IH; assumption.
  - clear Hnone. revert self.
    induction answers as [|answer rest IH]; intros self; simpl.
    + reflexivity.
    + destruct (_definitions self) eqn:E; [|apply IH].
      destruct more; simpl; [reflexivity | now rewrite E].
Qed.

(** ** Escaping and rendering *)

Lemma replace_space_cons (c : ascii) (r : string) :
  replace " " "\ " (String c r)
  = if Ascii.eqb c " "
    then String "\" (String " " (replace " " "\ " r))
    else String c (replace " " "\ " r).
Proof. simpl. destruct (Ascii.eqb c " "); reflexivity. Qed.

Lemma replace_space_head (s r : string) :
  replace " " "\ " s <> String " " r.
Proof.
  destruct s as [|c s]; [discriminate|].
  rewrite replace_space_cons.
  destruct (Ascii.eqb c " ") eqn:E; [discriminate|].
  intros H. injection H as -> _. discriminate.
Qed.

Lemma replace_space_injective (s1 s2 : string) :
  replace " " "\ " s1 = replace " " "\ " s2 -> s1 = s2.
Proof.
  revert s2. induction s1 as [|c1 r1 IH]; intros [|c2 r2] H.
  - reflexivity.
  - rewrite replace_space_cons in H. simpl in H.
    destruct (Ascii.eqb c2 " "); discriminate.
  - rewrite replace_space_cons in H. simpl in H.
    destruct (Ascii.eqb c1 " "); discriminate.
  - rewrite !replace_space_cons in H.
    destruct (Ascii.eqb c1 " ") eqn:E1, (Ascii.eqb c2 " ") eqn:E2.
    + apply Ascii.eqb_eq in E1, E2. subst.
      injection H as H. f_equal. now apply IH.
    + injection H as <- H. symmetry in H. now apply replace_space_head in H.
    + injection H as -> H. now apply replace_space_head in H.
    + injection H as -> H. f_equal. now apply IH.
Qed.

Section Rendering.

Context {fmt : PyFormat}.

(** X6.  The escaping of a string tag value puts a backslash before each
    space and changes nothing else: in the escaped text every space
    follows a backslash, the text is longer by the number of spaces, a
    value without a space (whatever else it holds, commas and equal signs
    included) is kept as it is, and different values stay different. *)
Theorem tag_value_escapes_spaces (s : string) :
  (forall previous, spaces_escaped previous (replace " " "\ " s) = true)
  /\ String.length (replace " " "\ " s)
     = (String.length s + count_spaces s)%nat
  /\ (count_spaces s = 0%nat -> tag_value (VStr s) = VStr s)
  /\ (forall s', tag_value (VStr s) = tag_value (VStr s') -> s = s').
Proof.
  split; [|split; [|split]].
  - induction s as [|c r IH]; intros previous; [reflexivity|].
    rewrite replace_space_cons.
    destruct (Ascii.eqb c " ") eqn:E.
    + simpl. apply IH.
    + simpl. rewrite E. simpl. apply IH.
  - induction s as [|c r IH]; [reflexivity|].
    rewrite replace_space_cons. simpl.
    destruct (Ascii.eqb c " "); simpl; rewrite IH; lia.
  - intros H. change (tag_value (VStr s)) with (VStr (replace " " "\ " s)).
    f_equal. revert H.
    induction s as [|c r IH]; intros H; [reflexivity|].
    rewrite replace_space_cons. simpl in H.
    destruct (Ascii.eqb c " "); [discriminate|].
    f_equal. now apply IH.
  - intros s' H.
    change (VStr (replace " " "\ " s) = VStr (replace " " "\ " s')) in H.
    injection H as H. now apply replace_space_injective.
Qed.

End Rendering.

(** ** The tags of a sample *)

Lemma dict_keys_set (d : Dict) (k k' : string) (v : PyVal) :
  k' ∈ dict_keys (dict_set d k v) <-> k' = k \/ k' ∈ dict_keys d.
Proof.
  destruct (decide (k ∈ dict_keys d)) as [I|N].
  - rewrite dict_keys_set_present by assumption.
    split; [auto | intros [->|H]; assumption].
  - rewrite dict_keys_set_absent by assumption.
    rewrite elem_of_app, list_elem_of_singleton. tauto.
Qed.

Lemma dict_keys_set_NoDup (d : Dict) (k : string) (v : PyVal) :
  NoDup (dict_keys d) -> NoDup (dict_keys (dict_set d k v)).
Proof.
  intros H. destruct (decide (k ∈ dict_keys d)) as [I|N].
  - now rewrite dict_keys_set_present.
  - rewrite dict_keys_set_absent by assumption.
    apply NoDup_app. split; [assumption|]. split.
    + intros x Hx Hk. apply list_elem_of_singleton in Hk. now subst.
    + apply NoDup_singleton.
Qed.

Lemma metric_item_raise (metric : Metric) (key : string) (e : PyExc) :
  metric_item metric key = Raise e ->
  e = KeyError key /\ dict_get (m_extra metric) key = None.
Proof.
  unfold metric_item, dict_item.
  repeat (destruct (String.eqb key _); [discriminate|]).
  destruct (dict_get (m_extra metric) key); [discriminate|].
  intros H. injection H as <-. auto.
Qed.

Section Tags.

Context {fmt : PyFormat}.

Lemma build_tags_items (metric : Metric) (K : list string) (tags0 tags : Dict) :
  build_tags metric K tags0 = Return tags ->
  (forall k, k ∈ K ->
             exists v, metric_item metric k = Return v
                       /\ dict_get tags k = Some (tag_value v))
  /\ (forall k, k ∈ dict_keys tags <-> k ∈ dict_keys tags0 \/ k ∈ K)
  /\ (NoDup (dict_keys tags0) -> NoDup (dict_keys tags)).
Proof.
  revert tags0. induction K as [|tag rest IH]; simpl; intros tags0 H.
  - injection H as <-. split; [|split].
    + intros k Hk. now apply elem_of_nil in Hk.
    + intros k. rewrite elem_of_nil. tauto.
    + auto.
  - destruct (metric_item metric tag) as [v|e] eqn:Ev; [|discriminate].
    destruct (IH _ H) as (Hitems & Hkeys & Hnodup).
    split; [|split].
    + intros k Hk. destruct (decide (k ∈ rest)) as [I|N]; [now apply Hitems|].
      apply elem_of_cons in Hk as [->|Hk]; [|contradiction].
      exists v. split; [exact Ev|].
      rewrite (build_tags_other _ _ _ _ H tag N). apply dict_get_set_eq.
    + intros k. rewrite Hkeys, dict_keys_set, elem_of_cons. tauto.
    + intros Hnd. apply Hnodup. now apply dict_keys_set_NoDup.
Qed.

Lemma build_tags_raise (metric : Metric) (K : list string) (tags0 : Dict)
    (e : PyExc) :
  build_tags metric K tags0 = Raise e ->
  exists k, k ∈ K /\ metric_item metric k = Raise e.
Proof.
  revert tags0. induction K as [|tag rest IH]; simpl; intros tags0 H.
  - discriminate.
  - destruct (metric_item metric tag) as [v|e'] eqn:Ev.
    + destruct (IH _ H) as (k & Hk & Hr). exists k. split; [now right | exact Hr].
    + injection H as ->. exists tag. split; [left | exact Ev].
Qed.

Lemma build_tags_return (metric : Metric) (K : list string) (tags0 tags : Dict)
    (k : string) :
  build_tags metric K tags0 = Return tags -> k ∈ K ->
  exists v, metric_item metric k = Return v.
Proof.
  intros H Hk. destruct (build_tags_items _ _ _ _ H) as (Hitems & _).
  destruct (Hitems k Hk) as (v & Hv & _). eauto.
Qed.

(** X8.  The tags of an accepted sample hold, under every tag key of its
    definition, the value the sample has under that key (escaped if it is
    a string), and beyond these keys only ['type'], which is the
    lower-cased source unless ['type'] is a tag key itself; the keys are
    distinct. *)
Theorem build_tags_lookup (metric : Metric) (definition_tags : list string)
    (source : string) (tags : Dict) :
  build_tags metric definition_tags [("type", VStr source)] = Return tags ->
  (forall k, k ∈ definition_tags ->
             exists v, metric_item metric k = Return v
                       /\ dict_get tags k = Some (tag_value v))
  /\ ("type" ∉ definition_tags -> dict_get tags "type" = Some (VStr source))
  /\ (forall k, k ∈ dict_keys tags <-> k = "type" \/ k ∈ definition_tags)
  /\ NoDup (dict_keys tags).
Proof.
  intros H. destruct (build_tags_items _ _ _ _ H) as (Hitems & Hkeys & Hnodup).
  split; [exact Hitems|]. split; [|split].
  - intros N. now rewrite (build_tags_other _ _ _ _ H "type" N).
  - intros k. rewrite Hkeys. simpl. rewrite list_elem_of_singleton. tauto.
  - apply Hnodup. simpl. apply NoDup_singleton.
Qed.

(** X9.  A sample that lacks a tag of its definition is dropped: the
    handler logs the [KeyError] of a tag key that is missing, which shows
    as the [repr] of the key (the key in single quotes when it is made of
    printable characters other than the quote and the backslash), and
    nothing else of the plugin changes. *)
Theorem receive_missing_tag (self : InfluxDB) (metric : Metric)
    (definitions : Definitions) (definition : MetricDefinition) (tag : string) :
  _enabled self = true ->
  _definitions self = Some definitions ->
  lookup_definition definitions (m_source metric) (m_type metric)
    (m_metric metric) = Some definition ->
  tag ∈ def_tags definition ->
  metric_item metric tag = Raise (KeyError tag) ->
  exists missing,
    missing ∈ def_tags definition
    /\ dict_get (m_extra metric) missing = None
    /\ _receive_metric_data metric self
       = logger ("Error receiving metrics: " +:+ py_repr missing) self
    /\ (plain missing = true ->
        _receive_metric_data metric self
        = logger ("Error receiving metrics: '" +:+ missing +:+ "'") self).
Proof.
  intros Hen Hdefs Hlook Htag Hraise.
  destruct (build_tags metric (def_tags definition)
              [("type", VStr (lower (m_source metric)))]) as [tags|ex] eqn:Htags.
  - destruct (build_tags_return _ _ _ _ _ Htags Htag) as (v & Hv). congruence.
  - destruct (build_tags_raise _ _ _ _ Htags) as (missing & Hin & Hex).
    destruct (metric_item_raise _ _ _ Hex) as [-> Hnone].
    exists missing. split; [exact Hin|]. split; [exact Hnone|].
    assert (Hlog : _receive_metric_data metric self
                   = logger ("Error receiving metrics: " +:+ py_repr missing)
                       self).
    { unfold _receive_metric_data, receive_try. rewrite Hen, Hdefs, Hlook.
      unfold bind at 1, lift. rewrite Htags. simpl.
      now rewrite append_empty_r. }
    split; [exact Hlog|].
    intros Hplain. rewrite Hlog. now rewrite (py_repr_plain _ Hplain).
Qed.

End Tags.

(** ** What the ingestion keeps *)

Section Frame.

Context {fmt : PyFormat}.

Lemma after_ingest_keeps (self : InfluxDB) (metric : Metric)
    (definition : MetricDefinition) (tags : Dict) :
  posted (after_ingest self metric definition tags) = posted self
  /\ _endpoint (after_ingest self metric definition tags) = _endpoint self
  /\ _batch_size (after_ingest self metric definition tags) = _batch_size self.
Proof. unfold after_ingest. now destruct (ingest_bucket _ _ _ _ _ _ _). Qed.

Lemma receive_other_bucket (self : InfluxDB) (metric : Metric)
    (source metric_type : string) :
  (lower (m_source metric), m_type metric) <> (source, metric_type) ->
  entries_of (_pending_metrics (_receive_metric_data metric self))
    source metric_type
  = entries_of (_pending_metrics self) source metric_type.
Proof.
  intros N.
  destruct (receive_cases self metric)
    as [(d & t & _ & ->)|[(_ & _ & ->)|(ex & _ & _ & ->)]];
    [now apply after_ingest_other | reflexivity | reflexivity].
Qed.

(** X10.  The ingestion of a sample makes no request and changes neither
    the configuration nor the definitions; of the pending groups it touches
    only the bucket of the sample's lower-cased source and type, and it
    never shrinks a bucket: a bucket keeps its number of open groups or
    gains one. *)
Theorem receive_frame (self : InfluxDB) (metric : Metric) :
  let self' := _receive_metric_data metric self in
  posted self' = posted self
  /\ _enabled self' = _enabled self
  /\ _endpoint self' = _endpoint self
  /\ _batch_size self' = _batch_size self
  /\ _definitions self' = _definitions self
  /\ (forall source metric_type,
         (lower (m_source metric), m_type metric) <> (source, metric_type) ->
         entries_of (_pending_metrics self') source metric_type
         = entries_of (_pending_metrics self) source metric_type)
  /\ (length (bucket self metric) <= length (bucket self' metric)
      <= S (length (bucket self metric)))%nat.
Proof.
  intros self'.
  destruct (receive_config self metric) as [He Hd].
  split; [|split; [exact He|split; [|split; [|split; [exact Hd|split]]]]].
  - unfold self'.
    destruct (receive_cases self metric)
      as [(d & t & _ & ->)|[(_ & _ & ->)|(ex & _ & _ & ->)]];
      [apply after_ingest_keeps | reflexivity | reflexivity].
  - unfold self'.
    destruct (receive_cases self metric)
      as [(d & t & _ & ->)|[(_ & _ & ->)|(ex & _ & _ & ->)]];
      [apply after_ingest_keeps | reflexivity | reflexivity].
  - unfold self'.
    destruct (receive_cases self metric)
      as [(d & t & _ & ->)|[(_ & _ & ->)|(ex & _ & _ & ->)]];
      [apply after_ingest_keeps | reflexivity | reflexivity].
  - intros source metric_type N. now apply receive_other_bucket.
  - destruct (receive_cases self metric)
      as [(d & t & Hacc & _)|[(_ & _ & E)|(ex & _ & _ & E)]].
    + destruct (accepted_step self metric d t Hacc)
        as [(i & p & Hsel & _ & Hb & _)
           |[(i & p & Hsel & _ & Hb & _)|(_ & Hb & _)]];
        fold self' in Hb; rewrite Hb.
      * rewrite length_insert. lia.
      * destruct Hsel as (Hi & _).
        pose proof (lookup_lt_Some _ _ _ Hi) as Hlt.
        rewrite length_app, length_delete by eauto. simpl. lia.
      * rewrite length_app. simpl. lia.
    + unfold self'. rewrite E. lia.
    + unfold self'. rewrite E. unfold bucket. simpl. lia.
Qed.

(** ** Well-formed groups *)

Lemma well_formed_new (metric : Metric) (K : list string) (source : string)
    (tags : Dict) (name : string) (value : PyVal) :
  build_tags metric K [("type", VStr source)] = Return tags ->
  well_formed_group
    (new_group (m_timestamp metric * 1000000000) tags name value).
Proof.
  intros H. destruct (build_tags_items _ _ _ _ H) as (_ & Hkeys & Hnodup).
  split; [discriminate|].
  split; [apply Hnodup; simpl; apply NoDup_singleton|].
  split; [apply NoDup_singleton|]. split; [|simpl; eauto].
  simpl. destruct (dict_get tags "type") eqn:E; [eauto|].
  apply dict_get_None in E. exfalso. apply E, Hkeys. left. simpl. left.
Qed.

Lemma well_formed_merge (pending : Group) (name : string) (value : PyVal) :
  well_formed_group pending ->
  well_formed_group (merge_field pending name value).
Proof.
  intros (Hne & Ht & Hf & Htype & Hts).
  split; [|split; [exact Ht|split; [|split; [exact Htype | exact Hts]]]].
  - simpl. destruct (g_fields pending) as [|[k v] r]; simpl.
    + discriminate.
    + destruct (String.eqb k name); discriminate.
  - simpl. now apply dict_keys_set_NoDup.
Qed.

(** X11.  In every state the plugin reaches, every open group has at least
    one field, distinct keys among its tags and among its fields, a
    ['type'] tag, and a timestamp that is a whole number of seconds
    expressed in nanoseconds. *)
Theorem reachable_groups_well_formed (self : InfluxDB) :
  reachable self ->
  forall source metric_type g,
    g ∈ entries_of (_pending_metrics self) source metric_type ->
    well_formed_group g.
Proof.
  induction 1 as [config|self self' _ IH Hstep].
  - intros source metric_type g Hg. now apply elem_of_nil in Hg.
  - destruct Hstep as [metric self|turn self|answer self Hnone|config self];
      [| |destruct answer as [[|] definitions|ex]; exact IH|exact IH].
    + intros source metric_type g Hg.
      destruct (decide ((lower (m_source metric), m_type metric)
                        = (source, metric_type))) as [E|N].
      2:{ rewrite receive_other_bucket in Hg by assumption. eauto. }
      injection E as <- <-.
      fold (bucket (_receive_metric_data metric self) metric) in Hg.
      specialize (IH (lower (m_source metric)) (m_type metric)).
      fold (bucket self metric) in IH.
      destruct (receive_cases self metric)
        as [(d & t & Hacc & _)|[(_ & _ & E)|(ex & _ & _ & E)]].
      * pose proof Hacc as (_ & _ & Htags).
        destruct (accepted_step self metric d t Hacc)
          as [(i & p & (Hi & _) & _ & Hb & _)
             |[(i & p & Hsel & _ & Hb & _)|(_ & Hb & _)]];
          rewrite Hb in Hg.
        -- apply list_elem_of_lookup in Hg as [c Hc].
           destruct (decide (c = i)) as [->|Hci].
           ++ rewrite list_lookup_insert_eq in Hc
                by (eapply lookup_lt_Some; eassumption).
              injection Hc as <-. apply well_formed_merge, IH.
              eapply list_elem_of_lookup_2; eassumption.
           ++ rewrite list_lookup_insert_ne in Hc by congruence.
              apply IH. eapply list_elem_of_lookup_2; eassumption.
        -- apply elem_of_app in Hg as [Hg|Hg].
           ++ apply list_elem_of_lookup in Hg as [c Hc].
              destruct (lookup_delete_inv _ _ _ _ Hc) as (c' & Hc' & _).
              apply IH. eapply list_elem_of_lookup_2; eassumption.
           ++ apply list_elem_of_singleton in Hg as ->.
              eapply well_formed_new; eassumption.
        -- apply elem_of_app in Hg as [Hg|Hg]; [now apply IH|].
           apply list_elem_of_singleton in Hg as ->.
           eapply well_formed_new; eassumption.
      * rewrite E in Hg. now apply IH.
      * rewrite E in Hg. now apply IH.
    + intros source metric_type g.
      destruct (sender_cycle_pending turn self) as [-> _]. apply IH.
Qed.

End Frame.

(** ** Samples of one identity *)



Section Identity.

Context {fmt : PyFormat}.





End Identity.

(** ** Runs of the plugin *)

Section PluginRuns.

Context {fmt : PyFormat}.

Lemma receive_disabled (self : InfluxDB) (metric : Metric) :
  _enabled self = false \/ _definitions self = None ->
  _receive_metric_data metric self = self.
Proof.
  unfold _receive_metric_data, receive_try. intros [->| ->].
  - reflexivity.
  - now destruct (_enabled self).
Qed.

Lemma read_config_disabled (config : Config) (self : InfluxDB) :
  cfg_url config = "" \/ cfg_database config = "" ->
  _enabled (_read_config config self) = false.
Proof.
  intros [H|H]; simpl; rewrite H; simpl.
  - reflexivity.
  - apply andb_false_r.
Qed.

(** X14.  A plugin started with an empty url or an empty database is
    disabled, and stays without effect whatever samples arrive and however
    often the sender and the loader make a turn: no group is opened, no
    entry is queued and no request is made. *)
Theorem disabled_plugin_does_nothing (config : Config) (ops : list PluginOp) :
  cfg_url config = "" \/ cfg_database config = "" ->
  let self := run_plugin ops (init config) in
  _enabled self = false
  /\ _pending_metrics self = ∅
  /\ _send_queue self = []
  /\ posted self = [].
Proof.
  intros Hcfg.
  assert (Hinit : _enabled (init config) = false
                  /\ _pending_metrics (init config) = ∅
                  /\ _send_queue (init config) = []
                  /\ posted (init config) = []).
  { split; [|auto]. exact (read_config_disabled config _ Hcfg). }
  unfold run_plugin. generalize dependent (init config).
  induction ops as [|op ops IH]; intros self Hself; [exact Hself|].
  apply (IH (plugin_step self op)). destruct Hself as (He & Hp & Hq & Hr).
  destruct op as [metric|turn|answer]; unfold plugin_step.
  - rewrite receive_disabled by auto. auto.
  - destruct (sender_cycle_parts turn self) as (Hq' & Hp' & _ & _ & He' & _).
    destruct (sender_cycle_pending turn self) as [Hpm _].
    rewrite Hq, drain_nil in Hq', Hp'. simpl in Hq', Hp'.
    rewrite He', Hpm, Hq', Hp'. auto.
  - destruct (load_definitions_keeps [answer] self) as (-> & -> & -> & -> & _).
    auto.
Qed.

(** X15.  Until the loader has set the definitions, every sample is
    dropped: whatever the configuration, a run without a loader turn that
    sets them opens no group, queues no entry and makes no request. *)
Theorem nothing_before_definitions (config : Config) (ops : list PluginOp) :
  Forall (fun op => loads op = false) ops ->
  let self := run_plugin ops (init config) in
  _definitions self = None
  /\ _pending_metrics self = ∅
  /\ _send_queue self = []
  /\ posted self = [].
Proof.
  intros Hops.
  assert (Hinit : _definitions (init config) = None
                  /\ _pending_metrics (init config) = ∅
                  /\ _send_queue (init config) = []
                  /\ posted (init config) = []) by auto.
  unfold run_plugin. generalize dependent (init config).
  induction Hops as [|op ops Hop _ IH]; intros self Hself; [exact Hself|].
  apply (IH (plugin_step self op)). destruct Hself as (Hd & Hp & Hq & Hr).
  destruct op as [metric|turn|answer]; unfold plugin_step.
  - rewrite receive_disabled by auto. auto.
  - destruct (sender_cycle_parts turn self) as (Hq' & Hp' & _).
    destruct (sender_cycle_pending turn self) as [Hpm Hd'].
    rewrite Hq, drain_nil in Hq', Hp'. simpl in Hq', Hp'.
    rewrite Hd', Hpm, Hq', Hp'. auto.
  - simpl. rewrite Hd.
    destruct answer as [[|] [definitions|]|ex]; simpl in *;
      try discriminate; auto.
Qed.

(** X16.  The sender does not look at [_enabled], and [_read_config] keeps
    the queue and the pending groups: entries queued under an old
    configuration are posted by the next turn under the new one.  The
    request goes to the endpoint made of the new url and database and
    carries the oldest entries of the queue, oldest first, as many as the
    new batch size allows (all of them for a batch size below 1); this
    also holds when the new configuration disables the plugin. *)
Theorem queued_entries_follow_the_configuration (config : Config)
    (turn : Turn) (self : InfluxDB) :
  _send_queue self <> [] ->
  let self1 := _read_config config self in
  let batch_size := default 10 (cfg_batch_size config) in
  let n := if Z.leb 1 batch_size
           then Nat.min (Z.to_nat batch_size) (length (_send_queue self))
           else length (_send_queue self) in
  _send_queue self1 = _send_queue self
  /\ _pending_metrics self1 = _pending_metrics self
  /\ (1 <= n)%nat
  /\ posted (sender_cycle turn self1)
     = {| req_url := cfg_url config +:+ "/write?db=" +:+ cfg_database config;
          req_data := join (String "010" EmptyString)
                        (take n (rev (_send_queue self))) |}
         :: posted self
  /\ _send_queue (sender_cycle turn self1)
     = take (length (_send_queue self) - n) (_send_queue self).
Proof.
  intros Hq self1 batch_size n.
  split; [reflexivity|]. split; [reflexivity|].
  assert (Hpos : (0 < length (_send_queue self))%nat)
    by (destruct (_send_queue self); [contradiction | simpl; lia]).
  assert (Hn : n = taken batch_size 0 (length (_send_queue self))).
  { unfold n, taken. clearbody batch_size.
    change (Z.of_nat 0) with 0. rewrite Z.sub_0_r.
    destruct (Z.leb_spec 1 batch_size) as [H1|H1],
             (Z.ltb_spec 0 batch_size) as [H0|H0];
      try reflexivity; exfalso; clear - H0 H1; lia. }
  assert (Hn1 : (1 <= n)%nat) by (rewrite Hn; now apply taken_progress).
  split; [exact Hn1|].
  destruct (sender_cycle_parts turn self1) as (Hq' & Hp & _).
  change (_batch_size self1) with batch_size in Hq', Hp.
  change (_send_queue self1) with (_send_queue self) in Hq', Hp.
  change (posted self1) with (posted self) in Hp.
  change (_endpoint self1)
    with (cfg_url config +:+ "/write?db=" +:+ cfg_database config) in Hp.
  pose proof (drain_oldest_first batch_size (rev (_send_queue self)) []) as E.
  rewrite rev_involutive, length_rev in E. simpl length in E.
  rewrite <- Hn in E. simpl app in E.
  rewrite E in Hq', Hp. simpl fst in Hp. simpl snd in Hq'.
  assert (Hle : (n <= length (_send_queue self))%nat).
  { unfold n. clearbody batch_size. destruct (Z.leb 1 batch_size); lia. }
  split.
  - rewrite Hp, length_take, length_rev.
    destruct (Nat.ltb_spec 0 (Nat.min n (length (_send_queue self))));
      [reflexivity | lia].
  - rewrite Hq'. now rewrite skipn_rev, rev_involutive.
Qed.

End PluginRuns.


(** ** The sample data *)

#[local] Existing Instance example_format.



Lemma two_meters_reachable (definitions : Definitions) :
  reachable (two_meters definitions).
Proof.
  unfold two_meters, receive_example, started.
  eapply reachable_step; [|apply step_receive].
  eapply reachable_step; [|apply step_receive].
  eapply reachable_step;
    [|apply (step_loader (Answered true (Some definitions))); reflexivity].
  apply reachable_init.
Defined.


Example two_meters_bucket :
  bucket (two_meters mixed_definitions) (sample "uptime" 5 7 [("id", VInt 0)])
  = [group_a; group_b].
Proof. vm_compute. reflexivity. Qed.

(** The examples of the specification: a line, and the escaping of a tag. *)
Example line_rendering :
  _build_entry "power"
    [("type", VStr "energy"); ("device", tag_value (VStr "Meter 1"))]
    (EDict [("power", encode_value (VInt 1234))]) (Some 1497677091000000000)
  = "power,type=energy,device=Meter\ 1 power=1234i 1497677091000000000".
Proof. reflexivity. Qed.

Example tag_escaping : tag_value (VStr "a b") = VStr "a\ b".
Proof. reflexivity. Qed.

(** ** The defect of the scan, at sample inputs

    The scan of lines 147-152 compares the tags of a pending group with
    those of the sample on the tag keys of the sample's definition only.
    When the definitions of one metric type declare different tag keys, as
    [mixed_definitions] do, a group with more tags is taken for the group of
    a sample with fewer.  The four theorems below evaluate the code on
    samples that show what follows from this. *)

Lemma started_reachable (definitions : Definitions) :
  reachable (started definitions).
Proof.
  unfold started.
  eapply reachable_step;
    [|apply (step_loader (Answered true (Some definitions))); reflexivity].
  apply reachable_init.
Defined.

Lemma two_uptimes_reachable : reachable two_uptimes.
Proof.
  unfold two_uptimes, receive_example, uptime_at_5.
  eapply reachable_step; [|apply step_receive].
  eapply reachable_step; [|apply step_receive].
  apply two_meters_reachable.
Defined.

(** C1 (the code at the failing input).  The sample [uptime] with the
    tags {type, id} meets the open group of Meter A, whose tags are
    {type, device, id}.  The tags differ, and yet the sample is merged into
    that group: its field will be written under a [device] tag that the
    sample never carried. *)
Theorem C1_merges_into_group_of_other_tags :
  reachable one_meter_mixed
  /\ bucket one_meter_mixed (uptime 1 7) = [group_a]
  /\ build_tags (uptime 1 7) ["id"] [("type", VStr "openmotics")] = Return id_tags
  /\ dict_get id_tags "device" = None
  /\ dict_get (g_tags group_a) "device" = Some (VStr "Meter\ A")
  /\ dict_eq id_tags (g_tags group_a) = false
  /\ bucket (receive_example (uptime 1 7) one_meter_mixed) (uptime 1 7)
     = [merge_field group_a "uptime" (VStr "7i")]
  /\ render "energy" (merge_field group_a "uptime" (VStr "7i"))
     = "energy,type=openmotics,device=Meter\ A,id=0 power=5i,uptime=7i 1000000000".
Proof.
  split.
  - unfold one_meter_mixed, receive_example.
    eapply reachable_step; [|apply step_receive]. apply started_reachable.
  - vm_compute. repeat split.
Qed.

(** C3 (the code at the failing input).  A group with the tags {type, id}
    is open at the timestamp 5.  A sample with the same source, type and
    tags arrives at the timestamp 2: the pending group is not closed,
    nothing is queued and no group is started at the timestamp 2; the
    sample is merged into the group of Meter B, which has other tags. *)
Theorem C3_new_timestamp_closes_nothing :
  reachable uptime_at_5
  /\ build_tags (uptime 5 7) ["id"] [("type", VStr "openmotics")] = Return id_tags
  /\ build_tags (uptime 2 8) ["id"] [("type", VStr "openmotics")] = Return id_tags
  /\ bucket uptime_at_5 (uptime 5 7) = [group_b; uptime_group 5000000000 "7i"]
  /\ g_tags (uptime_group 5000000000 "7i") = id_tags
  /\ _send_queue (receive_example (uptime 2 8) uptime_at_5)
     = _send_queue uptime_at_5
  /\ bucket (receive_example (uptime 2 8) uptime_at_5) (uptime 2 8)
     = [merge_field group_b "uptime" (VStr "8i"); uptime_group 5000000000 "7i"].
Proof.
  split.
  - unfold uptime_at_5, receive_example.
    eapply reachable_step; [|apply step_receive]. apply two_meters_reachable.
  - vm_compute. repeat split.
Qed.

(** C4 (the code at the failing input).  After the samples of two meters
    and two [uptime] samples at the timestamps 5 and 7, the bucket holds two
    open groups with the same tags {type, id}: the second [uptime] closed
    the group of Meter B instead of the group at the timestamp 5. *)
Theorem C4_two_open_groups_of_one_tagset :
  reachable two_uptimes
  /\ bucket uptime_at_5 (uptime 7 8) = [group_b; uptime_group 5000000000 "7i"]
  /\ bucket two_uptimes (uptime 7 8)
     = [uptime_group 5000000000 "7i"; uptime_group 7000000000 "8i"]
  /\ g_tags (uptime_group 5000000000 "7i") = g_tags (uptime_group 7000000000 "8i")
  /\ _send_queue two_uptimes = render "energy" group_b :: _send_queue uptime_at_5
  /\ ~ one_group_per_tagset (bucket two_uptimes (uptime 7 8)).
Proof.
  split; [apply two_uptimes_reachable|].
  split; [vm_compute; reflexivity|]. split; [vm_compute; reflexivity|].
  split; [reflexivity|]. split; [vm_compute; reflexivity|].
  intros H.
  specialize (H 0%nat 1%nat (uptime_group 5000000000 "7i")
                (uptime_group 7000000000 "8i")).
  assert (true = false) as E; [|discriminate E].
  apply H; [vm_compute; reflexivity | vm_compute; reflexivity | lia].
Qed.

(** C10 (the code at the failing input).  The open group at the timestamp
    7 has the tags and the timestamp of the sample and holds its metric
    [uptime] already.  The new value does not replace the old one: the scan
    stops at the older group with the same tags, closes it, which queues a
    line, and a second group is started at the timestamp 7. *)
Theorem C10_write_misses_open_group :
  reachable two_uptimes
  /\ bucket two_uptimes (uptime 7 9)
     = [uptime_group 5000000000 "7i"; uptime_group 7000000000 "8i"]
  /\ build_tags (uptime 7 9) ["id"] [("type", VStr "openmotics")] = Return id_tags
  /\ g_tags (uptime_group 7000000000 "8i") = id_tags
  /\ g_timestamp (uptime_group 7000000000 "8i")
     = m_timestamp (uptime 7 9) * 1000000000
  /\ dict_get (g_fields (uptime_group 7000000000 "8i")) "uptime"
     = Some (VStr "8i")
  /\ bucket (receive_example (uptime 7 9) two_uptimes) (uptime 7 9)
     = [uptime_group 7000000000 "8i"; uptime_group 7000000000 "9i"]
  /\ _send_queue (receive_example (uptime 7 9) two_uptimes)
     = render "energy" (uptime_group 5000000000 "7i") :: _send_queue two_uptimes.
Proof.
  split; [apply two_uptimes_reachable|]. vm_compute. repeat split.
Qed.

(** C8 (the code at the failing input).  A [long] value goes out without the
    suffix [i] that an [int] of the same metric gets. *)
Theorem C8_long_integer_without_suffix :
  encode_value (VLong 9223372036854775808)
  = VLong 9223372036854775808
  /\ format_item
       ("power_counter", encode_value (VLong 9223372036854775808))
     = "power_counter=9223372036854775808"
  /\ format_item
       ("power_counter", encode_value (VInt 1234567))
     = "power_counter=1234567i".
Proof. vm_compute. repeat split. Qed.

(** ** Counterexamples to the claims as they were stated *)

(** C2, as stated, fails: [True] is encoded as the text [True]. *)
Lemma C2_counterexample :
  encode_value (VBool true) = VStr "True"
  /\ encode_value (VBool true) <> VStr "true".
Proof. split; [reflexivity | discriminate]. Qed.

(** C6, as stated, fails: with a batch size of 0 the turn drains the one
    entry of the queue, not min(0, 1) = 0 entries. *)
Lemma C6_counterexample :
  _batch_size zero_batch = 0
  /\ _send_queue zero_batch = ["a"]
  /\ drain (_batch_size zero_batch) [] (_send_queue zero_batch) = (["a"], [])
  /\ _send_queue (sender_cycle (at_noon (Response 204 "")) zero_batch) = []
  /\ posted (sender_cycle (at_noon (Response 204 "")) zero_batch)
     = [{| req_url := "http://1.2.3.4:8086/write?db=openmotics";
           req_data := "a" |}]
  /\ Z.min (_batch_size zero_batch) (Z.of_nat (length (_send_queue zero_batch)))
     = 0.
Proof. vm_compute. repeat split. Qed.

(** C9, as stated, fails.  A timestamp that no double holds is not printed
    as it is: the last digit of 1497677091000000001 is lost.  And a tag
    value with a line break gives a text of two lines. *)
Lemma C9_counterexample :
  fits_double 1497677091000000001
  /\ _build_entry "power" [("type", VStr "energy")]
       (EDict [("power", VStr "1234i")]) (Some 1497677091000000001)
     = "power,type=energy power=1234i 1497677091000000000"
  /\ _build_entry "power" [("type", VStr "energy")]
       (EDict [("power", VStr "1234i")]) (Some 1497677091000000001)
     <> entry_line "power" [("type", "energy")] [("power", "1234i")]
          (Some 1497677091000000001)
  /\ has_char "010"
       (_build_entry "power" [("type", VStr two_lines)]
          (EDict [("power", VStr "1234i")]) None) = true.
Proof.
  split; [vm_compute; reflexivity|]. split; [vm_compute; reflexivity|].
  split; [vm_compute; discriminate | vm_compute; reflexivity].
Qed.

(** ** The theorems at sample inputs *)


Lemma C5_witness :
  (length ["A"; "B"; "C"] <= 3)%nat
  /\ tr_delivered (run_queue 2 (map Push ["A"; "B"; "C"] ++ repeat Drain 3))
     = ["A"; "B"; "C"].
Proof.
  split; [simpl; lia|].
  apply (proj2 (C5_queue_first_in_first_out 2)). simpl. lia.
Defined.

Lemma C6_witness :
  1 <= _batch_size three_queued
  /\ exists data : list string,
       Z.of_nat (length data)
       = Z.min (_batch_size three_queued)
           (Z.of_nat (length (_send_queue three_queued)))
       /\ _send_queue three_queued
          = _send_queue (sender_cycle (at_noon (Response 204 "")) three_queued)
            ++ rev data.
Proof.
  assert (Hb : 1 <= _batch_size three_queued) by (vm_compute; discriminate).
  split; [exact Hb|].
  destruct (C6_sender_drains_one_batch
              (at_noon (Response 204 "")) three_queued Hb)
    as (data & Hn & Hq & _).
  exists data. split; [exact Hn | exact Hq].
Defined.

Lemma C7_witness :
  _enabled disabled_plugin = false
  /\ receive_example (voltage 2 230) disabled_plugin = disabled_plugin.
Proof.
  split; [reflexivity|].
  apply (proj2 (C7_ingestion_never_raises
                  disabled_plugin (voltage 2 230))).
  left. reflexivity.
Defined.

(** The example line of the specification; its timestamp is
    2925150568359375 * 2 ** 9. *)
Lemma C9_witness :
  Z.abs 2925150568359375 <= 2 ^ 53
  /\ 0 <= 9
  /\ fits_double (2925150568359375 * 2 ^ 9)
  /\ _build_entry "power"
       [("type", VStr "energy"); ("device", tag_value (VStr "Meter 1"))]
       (EDict [("power", encode_value (VInt 1234))])
       (Some (2925150568359375 * 2 ^ 9))
     = "power,type=energy,device=Meter\ 1 power=1234i 1497677091000000000"
  /\ has_char "010"
       (_build_entry "power"
          [("type", VStr "energy"); ("device", tag_value (VStr "Meter 1"))]
          (EDict [("power", encode_value (VInt 1234))])
          (Some (2925150568359375 * 2 ^ 9))) = false.
Proof.
  assert (Hm : Z.abs 2925150568359375 <= 2 ^ 53) by (vm_compute; discriminate).
  assert (He : 0 <= 9) by lia.
  assert (Hfit : fits_double (2925150568359375 * 2 ^ 9))
    by (vm_compute; reflexivity).
  split; [exact Hm|]. split; [exact He|]. split; [exact Hfit|].
  destruct (C9_build_entry_line "power"
              [("type", VStr "energy"); ("device", tag_value (VStr "Meter 1"))]
              [("power", encode_value (VInt 1234))])
    as (_ & _ & Hexact & _ & _ & Hone).
  split.
  - rewrite (Hexact 2925150568359375 9 Hm He Hfit). vm_compute. reflexivity.
  - apply Hone.
    + reflexivity.
    + repeat (constructor; [split; reflexivity|]). constructor.
    + repeat (constructor; [split; reflexivity|]). constructor.
    + intros timestamp_ns E. injection E as <-. exact Hfit.
Defined.

(** ** The further properties at sample inputs *)

Lemma sender_cycle_empty_queue_witness :
  _send_queue (init example_config) = []
  /\ sender_cycle (at_noon (Response 204 "")) (init example_config)
     = init example_config.
Proof.
  split; [reflexivity|].
  apply sender_cycle_empty_queue. reflexivity.
Defined.

Lemma sender_cycle_unbounded_batch_witness :
  _batch_size zero_batch <= 0
  /\ _send_queue zero_batch <> []
  /\ _send_queue (sender_cycle (at_noon (Response 204 "")) zero_batch) = [].
Proof.
  assert (Hb : _batch_size zero_batch <= 0) by (vm_compute; discriminate).
  assert (Hq : _send_queue zero_batch <> []) by discriminate.
  split; [exact Hb|]. split; [exact Hq|].
  exact (proj1 (sender_cycle_unbounded_batch (at_noon (Response 204 ""))
                  zero_batch Hb Hq)).
Defined.


Lemma sender_turns_drain_oldest_witness :
  1 <= _batch_size three_queued
  /\ _send_queue (_sender [at_noon (Response 204 "")] three_queued) = ["c"]
  /\ _send_queue (_sender [at_noon (Response 204 ""); at_noon (Response 204 "")]
                    three_queued) = [].
Proof.
  assert (Hb : 1 <= _batch_size three_queued) by (vm_compute; discriminate).
  split; [exact Hb|]. split.
  - exact (sender_turns_drain_oldest [at_noon (Response 204 "")] three_queued Hb).
  - exact (sender_turns_drain_oldest
             [at_noon (Response 204 ""); at_noon (Response 204 "")]
             three_queued Hb).
Defined.

Lemma load_definitions_first_success_witness :
  _definitions (init example_config) = None
  /\ _definitions (_load_definitions example_answers (init example_config))
     = Some example_definitions.
Proof.
  split; [reflexivity|].
  exact (proj1 (load_definitions_first_success example_answers []
                  (init example_config) eq_refl)).
Defined.

Lemma tag_value_escapes_spaces_witness :
  count_spaces "a,b=c" = 0%nat /\ tag_value (VStr "a,b=c") = VStr "a,b=c".
Proof.
  split; [reflexivity|].
  destruct (tag_value_escapes_spaces "a,b=c") as (_ & _ & H & _).
  apply H. reflexivity.
Defined.

Lemma build_tags_lookup_witness :
  build_tags (voltage 2 230) ["device"; "id"] [("type", VStr "openmotics")]
  = Return (meter_tags "Meter\ B")
  /\ dict_get (meter_tags "Meter\ B") "type" = Some (VStr "openmotics")
  /\ NoDup (dict_keys (meter_tags "Meter\ B")).
Proof.
  assert (H : build_tags (voltage 2 230) ["device"; "id"]
                [("type", VStr "openmotics")]
              = Return (meter_tags "Meter\ B")) by reflexivity.
  split; [exact H|].
  destruct (build_tags_lookup _ _ _ _ H) as (_ & Htype & _ & Hnodup).
  split; [|exact Hnodup].
  apply Htype. intros Hin.
  apply elem_of_cons in Hin as [Hin|Hin]; [discriminate|].
  apply elem_of_cons in Hin as [Hin|Hin]; [discriminate|].
  now apply elem_of_nil in Hin.
Defined.

Lemma receive_missing_tag_witness :
  metric_item power_without_device "device" = Raise (KeyError "device")
  /\ exists missing,
       dict_get (m_extra power_without_device) missing = None
       /\ receive_example power_without_device (two_meters example_definitions)
          = logger ("Error receiving metrics: " +:+ py_repr missing)
              (two_meters example_definitions).
Proof.
  split; [reflexivity|].
  destruct (receive_missing_tag (two_meters example_definitions)
              power_without_device example_definitions device_id "device"
              eq_refl eq_refl eq_refl)
    as (missing & _ & Hnone & Hlog & _).
  - left.
  - reflexivity.
  - exists missing. split; [exact Hnone | exact Hlog].
Defined.

Lemma receive_frame_witness :
  (lower (m_source (voltage 2 230)), m_type (voltage 2 230))
  <> ("openmotics", "gas")
  /\ entries_of (_pending_metrics
                   (receive_example (voltage 2 230)
                      (two_meters example_definitions))) "openmotics" "gas"
     = entries_of (_pending_metrics (two_meters example_definitions))
         "openmotics" "gas".
Proof.
  assert (N : (lower (m_source (voltage 2 230)), m_type (voltage 2 230))
              <> ("openmotics", "gas")) by discriminate.
  split; [exact N|].
  destruct (receive_frame (two_meters example_definitions) (voltage 2 230))
    as (_ & _ & _ & _ & _ & H & _).
  exact (H "openmotics" "gas" N).
Defined.

Lemma two_meters_entries :
  entries_of (_pending_metrics (two_meters example_definitions))
    "openmotics" "energy" = [group_a; group_b].
Proof. vm_compute. reflexivity. Defined.

Lemma reachable_groups_well_formed_witness :
  reachable (two_meters example_definitions)
  /\ group_a ∈ entries_of (_pending_metrics (two_meters example_definitions))
                 "openmotics" "energy"
  /\ well_formed_group group_a.
Proof.
  assert (Hin : group_a ∈ entries_of
                  (_pending_metrics (two_meters example_definitions))
                  "openmotics" "energy")
    by (rewrite two_meters_entries; left).
  split; [apply two_meters_reachable|]. split; [exact Hin|].
  exact (reachable_groups_well_formed (two_meters example_definitions)
           (two_meters_reachable _) "openmotics" "energy" group_a Hin).
Defined.




Lemma disabled_plugin_does_nothing_witness :
  (cfg_url no_database = "" \/ cfg_database no_database = "")
  /\ posted (run_plugin busy_ops (init no_database)) = [].
Proof.
  assert (H : cfg_url no_database = "" \/ cfg_database no_database = "")
    by (right; reflexivity).
  split; [exact H|].
  destruct (disabled_plugin_does_nothing no_database busy_ops H)
    as (_ & _ & _ & Hp).
  exact Hp.
Defined.

Lemma nothing_before_definitions_witness :
  Forall (fun op => loads op = false) early_ops
  /\ _send_queue (run_plugin early_ops (init example_config)) = [].
Proof.
  assert (H : Forall (fun op => loads op = false) early_ops)
    by (repeat constructor).
  split; [exact H|].
  destruct (nothing_before_definitions example_config early_ops H)
    as (_ & _ & Hq & _).
  exact Hq.
Defined.

Lemma queued_entries_follow_the_configuration_witness :
  _send_queue three_queued <> []
  /\ posted (sender_cycle (at_noon (Response 204 ""))
               (_read_config moved_config three_queued))
     = {| req_url := "http://5.6.7.8:8086/write?db=metrics";
          req_data := join (String "010" EmptyString) ["a"; "b"; "c"] |}
         :: posted three_queued.
Proof.
  assert (Hq : _send_queue three_queued <> []) by discriminate.
  split; [exact Hq|].
  pose proof (queued_entries_follow_the_configuration moved_config
                (at_noon (Response 204 "")) three_queued Hq) as H.
  cbv zeta in H. destruct H as (_ & _ & _ & Hp & _). exact Hp.
Defined.
